(** * ACM PCA certificate authority resource: a shallow embedding

    The development follows the two Go source files
    [aws/resource_aws_acmpca_certificate_authority.go] and
    [aws/resource_aws_acmpca_certificate_authority_certificate_attachment.go].

    Go values of static type [interface{}] are embedded as the inductive
    [value]; a failed type assertion or a nil dereference is a [Panic];
    Go's [error] results are [option error]; remote calls run against an
    abstract service and are logged in an event trace. *)

From stdpp Require Import gmap strings list fin_maps pretty.
From Stdlib Require Import ZArith.

Set Warnings "-register-all".
Open Scope string_scope.
Open Scope Z_scope.
Open Scope list_scope.

(** ** Dynamic Go values *)

(** The dynamic values that flow through [schema.ResourceData] and the
    expand/flatten helpers: [nil], [string], [int], [bool],
    [[]interface{}] and [map[string]interface{}]. *)
Inductive value : Type :=
| VNil
| VString (s : string)
| VInt (z : Z)
| VBool (b : bool)
| VList (l : list value)
| VMap (m : gmap string value).

#[global] Instance value_eq_dec : EqDecision value.
Proof.
  refine (fix go (v1 v2 : value) {struct v1} : Decision (v1 = v2) :=
    let _ : EqDecision value := @go in
    match v1, v2 with
    | VNil, VNil => left _
    | VString a, VString b => cast_if (decide (a = b))
    | VInt a, VInt b => cast_if (decide (a = b))
    | VBool a, VBool b => cast_if (decide (a = b))
    | VList a, VList b => cast_if (decide (a = b))
    | VMap a, VMap b => cast_if (decide (a = b))
    | _, _ => right _
    end); abstract congruence.
Defined.

(** Pure Go code that may panic. *)
Inductive run (A : Type) : Type :=
| Ret (a : A)
| Panic.
Arguments Ret {A} a.
Arguments Panic {A}.

#[global] Instance run_ret : MRet run := @Ret.
#[global] Instance run_bind : MBind run := fun A B f r =>
  match r with
  | Ret a => f a
  | Panic => Panic
  end.

(** Type assertions [v.(T)] without the comma-ok form: a mismatch panics. *)
Definition as_string (v : value) : run string :=
  match v with VString s => Ret s | _ => Panic end.
Definition as_int (v : value) : run Z :=
  match v with VInt z => Ret z | _ => Panic end.
Definition as_bool (v : value) : run bool :=
  match v with VBool b => Ret b | _ => Panic end.
Definition as_slice (v : value) : run (list value) :=
  match v with VList l => Ret l | _ => Panic end.
Definition as_map (v : value) : run (gmap string value) :=
  match v with VMap m => Ret m | _ => Panic end.

(** [m[k]] without the comma-ok form: a missing key yields the nil
    interface value. *)
Definition index (m : gmap string value) (k : string) : value :=
  default VNil (m !! k).

(** Dereference of a pointer result, [p.Field] with [p == nil] panics. *)
Definition deref {A} (p : option A) : run A :=
  match p with Some a => Ret a | None => Panic end.

(** ** The [aws] pointer helpers *)

Definition StringValue (p : option string) : string := default "" p.
Definition BoolValue (p : option bool) : bool := default false p.
Definition Int64Value (p : option Z) : Z := default 0 p.

(** [d.Set] accepts pointers to primitives; a nil pointer is the nil value. *)
Definition ptr_string (p : option string) : value :=
  match p with Some s => VString s | None => VNil end.

(** ** The [acmpca] API structures (fields used by the resource) *)

Record ASN1Subject := {
  CommonName : option string;
  Country : option string;
  DistinguishedNameQualifier : option string;
  GenerationQualifier : option string;
  GivenName : option string;
  Initials : option string;
  Locality : option string;
  Organization : option string;
  OrganizationalUnit : option string;
  Pseudonym : option string;
  State : option string;
  Surname : option string;
  Title : option string
}.

Record CertificateAuthorityConfiguration := {
  KeyAlgorithm : option string;
  SigningAlgorithm : option string;
  Subject : option ASN1Subject
}.

Record CrlConfiguration := {
  CustomCname : option string;
  Enabled : option bool;
  ExpirationInDays : option Z;
  S3BucketName : option string
}.

Record RevocationConfiguration := {
  CrlConfiguration_ : option CrlConfiguration
}.

(** ** ConfigTranscoder: expand *)

(** The guard [if v, ok := m[k]; ok && v.(string) != "" { x = aws.String(v.(string)) }]
    that every optional string field goes through. *)
Definition opt_string_field (m : gmap string value) (k : string) : run (option string) :=
  match m !! k with
  | Some v => s ← as_string v; Ret (if String.eqb s "" then None else Some s)
  | None => Ret None
  end.

(** The guard [if v, ok := m[k]; ok && v.(int) > 0 { x = aws.Int64(int64(v.(int))) }].
    Go's [int] is taken as 64 bits wide, so [int64(v)] and [int(v)] are the
    identity. *)
Definition pos_int_field (m : gmap string value) (k : string) : run (option Z) :=
  match m !! k with
  | Some v => z ← as_int v; Ret (if 0 <? z then Some z else None)
  | None => Ret None
  end.

Definition expandAcmpcaASN1Subject (l : list value) : run (option ASN1Subject) :=
  match l with
  | [] => Ret None
  | l0 :: _ =>
    m ← as_map l0;
    common_name ← opt_string_field m "common_name";
    country ← opt_string_field m "country";
    distinguished_name_qualifier ← opt_string_field m "distinguished_name_qualifier";
    generation_qualifier ← opt_string_field m "generation_qualifier";
    given_name ← opt_string_field m "given_name";
    initials ← opt_string_field m "initials";
    locality ← opt_string_field m "locality";
    organization ← opt_string_field m "organization";
    organizational_unit ← opt_string_field m "organizational_unit";
    pseudonym ← opt_string_field m "pseudonym";
    state ← opt_string_field m "state";
    surname ← opt_string_field m "surname";
    title ← opt_string_field m "title";
    Ret (Some {| CommonName := common_name;
                 Country := country;
                 DistinguishedNameQualifier := distinguished_name_qualifier;
                 GenerationQualifier := generation_qualifier;
                 GivenName := given_name;
                 Initials := initials;
                 Locality := locality;
                 Organization := organization;
                 OrganizationalUnit := organizational_unit;
                 Pseudonym := pseudonym;
                 State := state;
                 Surname := surname;
                 Title := title |})
  end.

Definition expandAcmpcaCertificateAuthorityConfiguration (l : list value)
  : run (option CertificateAuthorityConfiguration) :=
  match l with
  | [] => Ret None
  | l0 :: _ =>
    m ← as_map l0;
    key_algorithm ← as_string (index m "key_algorithm");
    signing_algorithm ← as_string (index m "signing_algorithm");
    subject_list ← as_slice (index m "subject");
    subject ← expandAcmpcaASN1Subject subject_list;
    Ret (Some {| KeyAlgorithm := Some key_algorithm;
                 SigningAlgorithm := Some signing_algorithm;
                 Subject := subject |})
  end.

Definition expandAcmpcaCrlConfiguration (l : list value) : run (option CrlConfiguration) :=
  match l with
  | [] => Ret None
  | l0 :: _ =>
    m ← as_map l0;
    enabled ← as_bool (index m "enabled");
    custom_cname ← opt_string_field m "custom_cname";
    expiration_in_days ← pos_int_field m "expiration_in_days";
    s3_bucket_name ← opt_string_field m "s3_bucket_name";
    Ret (Some {| CustomCname := custom_cname;
                 Enabled := Some enabled;
                 ExpirationInDays := expiration_in_days;
                 S3BucketName := s3_bucket_name |})
  end.

Definition expandAcmpcaRevocationConfiguration (l : list value)
  : run (option RevocationConfiguration) :=
  match l with
  | [] => Ret None
  | l0 :: _ =>
    m ← as_map l0;
    crl_list ← as_slice (index m "crl_configuration");
    crl ← expandAcmpcaCrlConfiguration crl_list;
    Ret (Some {| CrlConfiguration_ := crl |})
  end.

(** ** ConfigTranscoder: flatten *)

Definition flattenAcmpcaASN1Subject (subject : option ASN1Subject) : list value :=
  match subject with
  | None => []
  | Some subject =>
    let m : gmap string value :=
      <["common_name" := VString (StringValue (CommonName subject))]> (
      <["country" := VString (StringValue (Country subject))]> (
      <["distinguished_name_qualifier" := VString (StringValue (DistinguishedNameQualifier subject))]> (
      <["generation_qualifier" := VString (StringValue (GenerationQualifier subject))]> (
      <["given_name" := VString (StringValue (GivenName subject))]> (
      <["initials" := VString (StringValue (Initials subject))]> (
      <["locality" := VString (StringValue (Locality subject))]> (
      <["organization" := VString (StringValue (Organization subject))]> (
      <["organizational_unit" := VString (StringValue (OrganizationalUnit subject))]> (
      <["pseudonym" := VString (StringValue (Pseudonym subject))]> (
      <["state" := VString (StringValue (State subject))]> (
      <["surname" := VString (StringValue (Surname subject))]> (
      <["title" := VString (StringValue (Title subject))]> ∅)))))))))))) in
    [VMap m]
  end.

Definition flattenAcmpcaCertificateAuthorityConfiguration
  (config : option CertificateAuthorityConfiguration) : list value :=
  match config with
  | None => []
  | Some config =>
    let m : gmap string value :=
      <["key_algorithm" := VString (StringValue (KeyAlgorithm config))]> (
      <["signing_algorithm" := VString (StringValue (SigningAlgorithm config))]> (
      <["subject" := VList (flattenAcmpcaASN1Subject (Subject config))]> ∅)) in
    [VMap m]
  end.

Definition flattenAcmpcaCrlConfiguration (config : option CrlConfiguration) : list value :=
  match config with
  | None => []
  | Some config =>
    let m : gmap string value :=
      <["custom_cname" := VString (StringValue (CustomCname config))]> (
      <["enabled" := VBool (BoolValue (Enabled config))]> (
      <["expiration_in_days" := VInt (Int64Value (ExpirationInDays config))]> (
      <["s3_bucket_name" := VString (StringValue (S3BucketName config))]> ∅))) in
    [VMap m]
  end.

Definition flattenAcmpcaRevocationConfiguration
  (config : option RevocationConfiguration) : list value :=
  match config with
  | None => []
  | Some config =>
    let m : gmap string value :=
      <["crl_configuration" := VList (flattenAcmpcaCrlConfiguration (CrlConfiguration_ config))]> ∅ in
    [VMap m]
  end.

(** ** Errors *)

(** Go [error] values met by the resource: an [awserr.Error] with its code
    and message, the SDK's [*resource.TimeoutError], and the plain errors
    built by [fmt.Errorf]. *)
Inductive error : Type :=
| AWSError (code message : string)
| TimeoutError (LastError : option error)
| Errorf (text : string).

(** The [Error()] method; [fmt.Errorf("...: %s", err)] formats with it. *)
Definition Error (e : error) : string :=
  match e with
  | AWSError code message => code +:+ ": " +:+ message
  | TimeoutError _ => "timeout while waiting for state"
  | Errorf text => text
  end.

(** [strings.Contains]. *)
Fixpoint contains (needle hay : string) : bool :=
  String.prefix needle hay ||
  match hay with
  | EmptyString => false
  | String _ rest => contains needle rest
  end.

(** Modelled from the spec: [isAWSErr] is a helper of the provider package
    declared outside the two source files. It recognises an AWS error by
    its code and by a substring match on the error text. *)
Definition isAWSErr (err : error) (code message : string) : bool :=
  match err with
  | AWSError c m => String.eqb c code && contains message m
  | _ => false
  end.

(** Constants of package [acmpca]. *)
Definition ErrCodeResourceNotFoundException : string := "ResourceNotFoundException".
Definition ErrCodeInvalidStateException : string := "InvalidStateException".
Definition CertificateAuthorityTypeRoot : string := "ROOT".
Definition CertificateAuthorityTypeSubordinate : string := "SUBORDINATE".
Definition CertificateAuthorityStatusCreating : string := "CREATING".
Definition CertificateAuthorityStatusPendingCertificate : string := "PENDING_CERTIFICATE".
Definition CertificateAuthorityStatusActive : string := "ACTIVE".
Definition CertificateAuthorityStatusDisabled : string := "DISABLED".

(** ** [schema.Schema] and [schema.ResourceData] *)

Inductive ValueType := TypeBool | TypeInt | TypeString | TypeList | TypeMap.

(** Of a schema entry only the value type and the default decide what
    [d.Get] returns. *)
Record Schema := {
  Type_ : ValueType;
  Default : option value
}.

Definition zero_value (t : ValueType) : value :=
  match t with
  | TypeBool => VBool false
  | TypeInt => VInt 0
  | TypeString => VString ""
  | TypeList => VList []
  | TypeMap => VMap ∅
  end.

Definition has_type (t : ValueType) (v : value) : bool :=
  match t, v with
  | TypeBool, VBool _ | TypeInt, VInt _ | TypeString, VString _
  | TypeList, VList _ | TypeMap, VMap _ => true
  | _, _ => false
  end.

(** The resource data handed to the CRUD functions: the identifier, the
    prior state, the current attribute values (configuration merged with
    what [d.Set] wrote) and the configured create timeout in seconds. *)
Record ResourceData := {
  rd_id : string;
  rd_state : gmap string value;
  rd_attrs : gmap string value;
  rd_timeout_create : Z
}.

(** A read through the schema: the stored value when it has the schema's
    type, else the default, else the zero value of the type. A key the
    schema does not declare reads as nil. *)
Definition read_field (sch : gmap string Schema) (m : gmap string value) (k : string) : value :=
  match sch !! k with
  | None => VNil
  | Some s =>
    let v := match m !! k with
             | Some v => v
             | None => default (zero_value (Type_ s)) (Default s)
             end in
    if has_type (Type_ s) v then v else zero_value (Type_ s)
  end.

Definition Get (sch : gmap string Schema) (d : ResourceData) (k : string) : value :=
  read_field sch (rd_attrs d) k.

(** [d.GetOk]: the value, and whether it is set to a non-zero value. *)
Definition GetOk (sch : gmap string Schema) (d : ResourceData) (k : string) : value * bool :=
  let v := Get sch d k in
  match sch !! k with
  | None => (v, false)
  | Some s => (v, bool_decide (v ≠ zero_value (Type_ s)))
  end.

Definition GetChange (sch : gmap string Schema) (d : ResourceData) (k : string) : value * value :=
  (read_field sch (rd_state d) k, Get sch d k).

Definition HasChange (sch : gmap string Schema) (d : ResourceData) (k : string) : bool :=
  let '(o, n) := GetChange sch d k in bool_decide (o ≠ n).

(** [d.Set]: refused with an error for a key outside the schema or a value
    of the wrong type; a nil value stores the zero value. *)
Definition Set_ (sch : gmap string Schema) (d : ResourceData) (k : string) (v : value)
  : ResourceData * option error :=
  match sch !! k with
  | None => (d, Some (Errorf ("Invalid address to set: " +:+ k)))
  | Some s =>
    let v' := match v with VNil => zero_value (Type_ s) | _ => v end in
    if has_type (Type_ s) v'
    then ({| rd_id := rd_id d; rd_state := rd_state d;
             rd_attrs := <[k := v']> (rd_attrs d);
             rd_timeout_create := rd_timeout_create d |}, None)
    else (d, Some (Errorf (k +:+ ": value of the wrong type")))
  end.

Definition SetId (d : ResourceData) (id : string) : ResourceData :=
  {| rd_id := id; rd_state := rd_state d; rd_attrs := rd_attrs d;
     rd_timeout_create := rd_timeout_create d |}.

Definition entry (t : ValueType) : Schema := {| Type_ := t; Default := None |}.
Definition entry_default (t : ValueType) (v : value) : Schema :=
  {| Type_ := t; Default := Some v |}.

(** The top-level schema of [aws_acmpca_certificate_authority]. *)
Definition resourceAwsAcmpcaCertificateAuthority : gmap string Schema :=
  list_to_map [
    ("arn", entry TypeString);
    ("certificate", entry TypeString);
    ("certificate_authority_configuration", entry TypeList);
    ("certificate_chain", entry TypeString);
    ("certificate_signing_request", entry TypeString);
    ("enabled", entry_default TypeBool (VBool true));
    ("not_after", entry TypeString);
    ("not_before", entry TypeString);
    ("revocation_configuration", entry TypeList);
    ("serial", entry TypeString);
    ("status", entry TypeString);
    ("permanent_deletion_time_in_days", entry_default TypeInt (VInt 30));
    ("tags", entry TypeMap);
    ("type", entry_default TypeString (VString CertificateAuthorityTypeSubordinate));
    ("validity_length", entry TypeInt);
    ("validity_unit", entry TypeString)
  ].

(** The schema of [aws_acmpca_certificate_authority_certificate_attachment]. *)
Definition resourceAwsAcmpcaCertificateAuthorityCertificateAttachment : gmap string Schema :=
  list_to_map [
    ("certificate_authority_arn", entry TypeString);
    ("certificate_body", entry TypeString);
    ("certificate_chain", entry TypeString)
  ].

(** ** Requests and responses of the remote service

    Each Go structure keeps its field names inside a module of its own.
    A request that carries only the authority ARN
    ([DescribeCertificateAuthorityInput], [GetCertificateAuthorityCertificateInput],
    [GetCertificateAuthorityCsrInput]) is represented by that ARN. *)

(** Tags as the [keyvaluetags] package holds them. *)
Abbreviation KeyValueTags := (gmap string string).

Module CreateCertificateAuthorityInput.
Record t := {
  CertificateAuthorityConfiguration : option CertificateAuthorityConfiguration;
  CertificateAuthorityType : option string;
  IdempotencyToken : option string;
  RevocationConfiguration : option RevocationConfiguration;
  Tags : KeyValueTags
}.
End CreateCertificateAuthorityInput.

Module CreateCertificateAuthorityOutput.
Record t := { CertificateAuthorityArn : option string }.
End CreateCertificateAuthorityOutput.

Module CertificateAuthority.
Record t := {
  Arn : option string;
  CertificateAuthorityConfiguration : option CertificateAuthorityConfiguration;
  NotAfter : option string;
  NotBefore : option string;
  RevocationConfiguration : option RevocationConfiguration;
  Serial : option string;
  Status : option string;
  Type_ : option string
}.
End CertificateAuthority.

Module DescribeCertificateAuthorityOutput.
Record t := { CertificateAuthority : option CertificateAuthority.t }.
End DescribeCertificateAuthorityOutput.

Module GetCertificateAuthorityCertificateOutput.
Record t := { Certificate : option string; CertificateChain : option string }.
End GetCertificateAuthorityCertificateOutput.

Module GetCertificateAuthorityCsrOutput.
Record t := { Csr : option string }.
End GetCertificateAuthorityCsrOutput.

Module UpdateCertificateAuthorityInput.
Record t := {
  CertificateAuthorityArn : option string;
  RevocationConfiguration : option RevocationConfiguration;
  Status : option string
}.
End UpdateCertificateAuthorityInput.

Module DeleteCertificateAuthorityInput.
Record t := {
  CertificateAuthorityArn : option string;
  PermanentDeletionTimeInDays : option Z
}.
End DeleteCertificateAuthorityInput.

Module Validity.
Record t := { Type_ : option string; Value : option Z }.
End Validity.

Module IssueCertificateInput.
Record t := {
  CertificateAuthorityArn : option string;
  Csr : string;
  IdempotencyToken : option string;
  SigningAlgorithm : option string;
  TemplateArn : option string;
  Validity : option Validity.t
}.
End IssueCertificateInput.

Module IssueCertificateOutput.
Record t := { CertificateArn : option string }.
End IssueCertificateOutput.

Module GetCertificateInput.
Record t := {
  CertificateArn : option string;
  CertificateAuthorityArn : option string
}.
End GetCertificateInput.

Module GetCertificateOutput.
Record t := { Certificate : option string; CertificateChain : option string }.
End GetCertificateOutput.

Module ImportCertificateAuthorityCertificateInput.
Record t := {
  Certificate : string;
  CertificateAuthorityArn : option string;
  CertificateChain : option string
}.
End ImportCertificateAuthorityCertificateInput.

(** A Go result pair: the output pointer and the error. *)
Definition resp (A : Type) : Type := option A * option error.

(** The client [conn *acmpca.ACMPCA] over a service state [W]. The time
    stamps of a described authority are carried in their RFC 3339
    rendering. The last two fields are modelled from the spec: the tag
    registry of package [keyvaluetags] lies outside the two source files,
    and its [ListTags(id)] and [UpdateTags(id, old, new)] are taken as one
    operation each. *)
Record ACMPCA (W : Type) := {
  CreateCertificateAuthority :
    CreateCertificateAuthorityInput.t → W → resp CreateCertificateAuthorityOutput.t * W;
  DescribeCertificateAuthority :
    string → W → resp DescribeCertificateAuthorityOutput.t * W;
  UpdateCertificateAuthority :
    UpdateCertificateAuthorityInput.t → W → resp unit * W;
  DeleteCertificateAuthority :
    DeleteCertificateAuthorityInput.t → W → resp unit * W;
  GetCertificateAuthorityCertificate :
    string → W → resp GetCertificateAuthorityCertificateOutput.t * W;
  GetCertificateAuthorityCsr :
    string → W → resp GetCertificateAuthorityCsrOutput.t * W;
  IssueCertificate :
    IssueCertificateInput.t → W → resp IssueCertificateOutput.t * W;
  WaitUntilCertificateIssued :
    GetCertificateInput.t → W → option error * W;
  GetCertificate :
    GetCertificateInput.t → W → resp GetCertificateOutput.t * W;
  ImportCertificateAuthorityCertificate :
    ImportCertificateAuthorityCertificateInput.t → W → resp unit * W;
  AcmpcaListTags : string → W → (KeyValueTags * option error) * W;
  AcmpcaUpdateTags : string → value → value → W → option error * W
}.
Arguments CreateCertificateAuthority {W}.
Arguments DescribeCertificateAuthority {W}.
Arguments UpdateCertificateAuthority {W}.
Arguments DeleteCertificateAuthority {W}.
Arguments GetCertificateAuthorityCertificate {W}.
Arguments GetCertificateAuthorityCsr {W}.
Arguments IssueCertificate {W}.
Arguments WaitUntilCertificateIssued {W}.
Arguments GetCertificate {W}.
Arguments ImportCertificateAuthorityCertificate {W}.
Arguments AcmpcaListTags {W}.
Arguments AcmpcaUpdateTags {W}.

(** ** Observable events *)

Inductive Call : Type :=
| CreateCertificateAuthorityCall (input : CreateCertificateAuthorityInput.t)
| DescribeCertificateAuthorityCall (arn : string)
| UpdateCertificateAuthorityCall (input : UpdateCertificateAuthorityInput.t)
| DeleteCertificateAuthorityCall (input : DeleteCertificateAuthorityInput.t)
| GetCertificateAuthorityCertificateCall (arn : string)
| GetCertificateAuthorityCsrCall (arn : string)
| IssueCertificateCall (input : IssueCertificateInput.t)
| WaitUntilCertificateIssuedCall (input : GetCertificateInput.t)
| GetCertificateCall (input : GetCertificateInput.t)
| ImportCertificateAuthorityCertificateCall (input : ImportCertificateAuthorityCertificateInput.t)
| ListTagsCall (arn : string)
| UpdateTagsCall (arn : string) (o n : value).

(** What a run leaves behind: each remote call with the error it came back
    with, and each identifier drawn from [resource.UniqueId]. *)
Inductive Event : Type :=
| Remote (c : Call) (err : option error)
| Fresh (id : string).

(** ** The monad of the CRUD functions *)

Record st (W : Type) := {
  rd : ResourceData;
  world : W;
  events : list Event;
  uniq : nat
}.
Arguments rd {W}.
Arguments world {W}.
Arguments events {W}.
Arguments uniq {W}.

Inductive outcome (W A : Type) : Type :=
| Done (a : A) (s : st W)
| Panicked (s : st W).
Arguments Done {W A} a s.
Arguments Panicked {W A} s.

Definition M (W A : Type) : Type := st W → outcome W A.

#[global] Instance M_ret {W} : MRet (M W) := fun A a s => Done a s.
#[global] Instance M_bind {W} : MBind (M W) := fun A B f m s =>
  match m s with
  | Done a s' => f a s'
  | Panicked s' => Panicked s'
  end.

(** The state a run ends in, whether it returned or panicked. *)
Definition final {W A} (o : outcome W A) : st W :=
  match o with Done _ s => s | Panicked s => s end.

Definition lift {W A} (r : run A) : M W A := fun s =>
  match r with
  | Ret a => Done a s
  | Panic => Panicked s
  end.

Definition get_d {W} : M W ResourceData := fun s => Done (rd s) s.

Definition put_d {W} (d : ResourceData) : M W unit := fun s =>
  Done tt {| rd := d; world := world s; events := events s; uniq := uniq s |}.

(** A remote call: runs the operation on the service state and logs it. *)
Definition remote {W A} (c : Call) (op : W → A * W) (err_of : A → option error) : M W A :=
  fun s =>
    let r := op (world s) in
    Done r.1 {| rd := rd s; world := r.2;
                events := events s ++ [Remote c (err_of r.1)]; uniq := uniq s |}.

(** [resource.UniqueId()] and [resource.PrefixedUniqueId(prefix)]: a prefix
    followed by a counter that advances with every draw. *)
Definition unique_id (prefix : string) (n : nat) : string := prefix +:+ pretty n.

Definition PrefixedUniqueId {W} (prefix : string) : M W string := fun s =>
  let id := unique_id prefix (uniq s) in
  Done id {| rd := rd s; world := world s;
             events := events s ++ [Fresh id]; uniq := S (uniq s) |}.

Definition UniqueId {W} : M W string := PrefixedUniqueId "terraform-".

(** Access to the resource data [d] from inside the monad, through the
    schema of the resource at hand. *)
Definition d_Get {W} (sch : gmap string Schema) (k : string) : M W value :=
  d ← get_d; mret (Get sch d k).
Definition d_GetOk {W} (sch : gmap string Schema) (k : string) : M W (value * bool) :=
  d ← get_d; mret (GetOk sch d k).
Definition d_GetChange {W} (sch : gmap string Schema) (k : string) : M W (value * value) :=
  d ← get_d; mret (GetChange sch d k).
Definition d_HasChange {W} (sch : gmap string Schema) (k : string) : M W bool :=
  d ← get_d; mret (HasChange sch d k).
Definition d_Set {W} (sch : gmap string Schema) (k : string) (v : value) : M W (option error) :=
  d ← get_d; put_d (Set_ sch d k v).1;; mret (Set_ sch d k v).2.
Definition d_SetId {W} (id : string) : M W unit :=
  d ← get_d; put_d (SetId d id).
Definition d_Id {W} : M W string :=
  d ← get_d; mret (rd_id d).
Definition d_Timeout {W} : M W Z :=
  d ← get_d; mret (rd_timeout_create d).

(** Early exit: [m] yields [Some r] for [return r] and [None] to go on. *)
Definition orelse {W} (m : M W (option (option error))) (k : M W (option error))
  : M W (option error) :=
  r ← m; match r with Some ret => mret ret | None => k end.

(** [if err != nil { return fmt.Errorf(prefix + "%s", err) }]. *)
Definition check {W} (prefix : string) (err : option error) (k : M W (option error))
  : M W (option error) :=
  match err with
  | Some e => mret (Some (Errorf (prefix +:+ Error e)))
  | None => k
  end.

(** The double quote, and the rendering of the [%q] verb on identifiers. *)
Definition dquote : string := String (Ascii.ascii_of_nat 34) EmptyString.
Definition quote (s : string) : string := dquote +:+ s +:+ dquote.

(** [aws.TimeValue(t).Format(time.RFC3339)] on a time stamp carried in its
    rendering; a nil pointer is the zero time. *)
Definition TimeValueFormat (t : option string) : string :=
  default "0001-01-01T00:00:00Z" t.

(** ** Package [keyvaluetags]

    Modelled from the spec: the tag registry collaborator lies outside the
    two source files. Tags are a map from keys to strings; the helpers
    below convert them from and to the values of the resource data. *)

Definition is_string (v : value) : bool :=
  match v with VString _ => true | _ => false end.
Definition tag_text (v : value) : string :=
  match v with VString s => s | _ => "" end.

(** [keyvaluetags.New] on a [map[string]interface{}] of strings. *)
Definition New (m : gmap string value) : run KeyValueTags :=
  if bool_decide (map_Forall (fun _ v => is_string v = true) m)
  then Ret (tag_text <$> m)
  else Panic.

(** [IgnoreAws] drops the keys reserved by AWS. *)
Definition IgnoreAws (t : KeyValueTags) : KeyValueTags :=
  filter (fun kv => String.prefix "aws:" kv.1 = false) t.

(** [Map] hands the tags to [d.Set]. *)
Definition Map_ (t : KeyValueTags) : value := VMap (VString <$> t).

(** ** The SDK's waiting primitives *)

(** How much fits into a wall-clock budget is decided by the environment:
    the number of further attempts (after the first) that a duration in
    seconds leaves room for, and the error [resource.Retry] reports once
    the budget is used up, given the last retryable error. *)
Record Budget := {
  retries_within : Z → nat;
  polls_within : Z → nat;
  retry_timeout : error → error
}.

Inductive RetryError : Type :=
| RetryableError (err : error)
| NonRetryableError (err : error).

(** Modelled from the spec: [resource.Retry], the generic retry primitive,
    lies outside the source files. It runs the closure, runs it again
    after a retryable failure while the budget lasts, and stops at once on
    success or on a failure that is not retryable. The closure's captured
    variable travels as the first component of its result. *)
Fixpoint retry_loop {W A} (exhausted : error → error) (n : nat)
    (f : M W (A * option RetryError)) : M W (A * option error) :=
  r ← f;
  match r.2 with
  | None => mret (r.1, None)
  | Some (NonRetryableError e) => mret (r.1, Some e)
  | Some (RetryableError e) =>
    match n with
    | O => mret (r.1, Some (exhausted e))
    | S n' => retry_loop exhausted n' f
    end
  end.

Definition Retry {W A} (budget : Budget) (timeout : Z)
    (f : M W (A * option RetryError)) : M W (A * option error) :=
  retry_loop (retry_timeout budget) (retries_within budget timeout) f.

Record StateChangeConf (W R : Type) := {
  Pending : list string;
  Target : list string;
  Refresh : M W (option R * string * option error);
  Timeout : Z
}.
Arguments Pending {W R}.
Arguments Target {W R}.
Arguments Refresh {W R}.
Arguments Timeout {W R}.

(** Modelled from the spec: [StateChangeConf.WaitForState], the activation
    poller, lies outside the source files. An error of the fetch ends the
    poll with that error; an empty result without error ends it at once as
    absence; a target status, or any status that is not pending, ends it
    with the entity; a pending status polls again until the budget is
    used up, which is a timeout error. *)
Fixpoint poll_loop {W R} (n : nat) (conf : StateChangeConf W R)
  : M W (option R * option error) :=
  r ← Refresh conf;
  match r with
  | (_, _, Some e) => mret (None, Some e)
  | (None, _, None) => mret (None, None)
  | (Some res, status, None) =>
    if bool_decide (status ∈ Target conf) then mret (Some res, None)
    else if bool_decide (status ∈ Pending conf) then
      match n with
      | O => mret (None, Some (TimeoutError None))
      | S n' => poll_loop n' conf
      end
    else mret (Some res, None)
  end.

Definition WaitForState {W R} (budget : Budget) (conf : StateChangeConf W R)
  : M W (option R * option error) :=
  poll_loop (polls_within budget (Timeout conf)) conf.

(** ** The resource functions *)

Section Provider.
Context {W : Type}.
(** The client [conn], the field [acmpcaconn] of the provider's [meta]. *)
Context (conn : ACMPCA W).
Context (budget : Budget).
(** [isResourceTimeoutError] is a helper of the provider package declared
    outside the two source files; it is taken as it comes. *)
Context (isResourceTimeoutError : error → bool).

Local Abbreviation CA := resourceAwsAcmpcaCertificateAuthority.
Local Abbreviation ATT := resourceAwsAcmpcaCertificateAuthorityCertificateAttachment.

Definition call_CreateCertificateAuthority (input : CreateCertificateAuthorityInput.t) :=
  remote (CreateCertificateAuthorityCall input) (CreateCertificateAuthority conn input) snd.
Definition call_DescribeCertificateAuthority (arn : string) :=
  remote (DescribeCertificateAuthorityCall arn) (DescribeCertificateAuthority conn arn) snd.
Definition call_UpdateCertificateAuthority (input : UpdateCertificateAuthorityInput.t) :=
  remote (UpdateCertificateAuthorityCall input) (UpdateCertificateAuthority conn input) snd.
Definition call_DeleteCertificateAuthority (input : DeleteCertificateAuthorityInput.t) :=
  remote (DeleteCertificateAuthorityCall input) (DeleteCertificateAuthority conn input) snd.
Definition call_GetCertificateAuthorityCertificate (arn : string) :=
  remote (GetCertificateAuthorityCertificateCall arn)
         (GetCertificateAuthorityCertificate conn arn) snd.
Definition call_GetCertificateAuthorityCsr (arn : string) :=
  remote (GetCertificateAuthorityCsrCall arn) (GetCertificateAuthorityCsr conn arn) snd.
Definition call_IssueCertificate (input : IssueCertificateInput.t) :=
  remote (IssueCertificateCall input) (IssueCertificate conn input) snd.
Definition call_WaitUntilCertificateIssued (input : GetCertificateInput.t) :=
  remote (WaitUntilCertificateIssuedCall input) (WaitUntilCertificateIssued conn input) id.
Definition call_GetCertificate (input : GetCertificateInput.t) :=
  remote (GetCertificateCall input) (GetCertificate conn input) snd.
Definition call_ImportCertificateAuthorityCertificate
    (input : ImportCertificateAuthorityCertificateInput.t) :=
  remote (ImportCertificateAuthorityCertificateCall input)
         (ImportCertificateAuthorityCertificate conn input) snd.
Definition call_AcmpcaListTags (arn : string) :=
  remote (ListTagsCall arn) (AcmpcaListTags conn arn) snd.
Definition call_AcmpcaUpdateTags (arn : string) (o n : value) :=
  remote (UpdateTagsCall arn o n) (AcmpcaUpdateTags conn arn o n) id.

(** [acmpcaCertificateAuthorityRefreshFunc(conn, certificateAuthorityArn)]:
    the fetch function of the activation poll. *)
Definition acmpcaCertificateAuthorityRefreshFunc (certificateAuthorityArn : string)
  : M W (option CertificateAuthority.t * string * option error) :=
  r ← call_DescribeCertificateAuthority certificateAuthorityArn;
  match r.2 with
  | Some err =>
    if isAWSErr err ErrCodeResourceNotFoundException ""
    then mret (None, "", None)
    else mret (None, "", Some err)
  | None =>
    match r.1 with
    | None => mret (None, "", None)
    | Some output =>
      match DescribeCertificateAuthorityOutput.CertificateAuthority output with
      | None => mret (None, "", None)
      | Some certificateAuthority =>
        mret (Some certificateAuthority,
              StringValue (CertificateAuthority.Status certificateAuthority), None)
      end
    end
  end.

(** [acmpcaCertificateAuthoritySelfSignCert(conn, d)]. *)
Definition acmpcaCertificateAuthoritySelfSignCert : M W (option error) :=
  (* Get CSR *)
  arn ← d_Id;
  r ← call_GetCertificateAuthorityCsr arn;
  check "error reading ACMPCA Certificate Authority Certificate Signing Request: " r.2 (
  getCertificateAuthorityCsrOutput ← lift (deref r.1);
  let csr := StringValue (GetCertificateAuthorityCsrOutput.Csr getCertificateAuthorityCsrOutput) in
  v ← d_Get CA "certificate_authority_configuration";
  certificateAuthorityConfiguration ← lift (as_map v);
  (* Issue self-signed certificate *)
  arn ← d_Id;
  token ← UniqueId;
  signing_algorithm ← lift (as_string (index certificateAuthorityConfiguration "signing_algorithm"));
  validity_unit ← (v ← d_Get CA "validity_unit"; lift (as_string v));
  validity_length ← (v ← d_Get CA "validity_length"; lift (as_int v));
  let issueCertificateInput := {|
    IssueCertificateInput.CertificateAuthorityArn := Some arn;
    IssueCertificateInput.Csr := csr;
    IssueCertificateInput.IdempotencyToken := Some token;
    IssueCertificateInput.SigningAlgorithm := Some signing_algorithm;
    IssueCertificateInput.TemplateArn := Some "arn:aws:acm-pca:::template/RootCACertificate/V1";
    IssueCertificateInput.Validity :=
      Some {| Validity.Type_ := Some validity_unit; Validity.Value := Some validity_length |}
  |} in
  r ← call_IssueCertificate issueCertificateInput;
  check "error issuing ACMPCA Certificate: " r.2 (
  issueCertificateOutput ← lift (deref r.1);
  let certificateArn := StringValue (IssueCertificateOutput.CertificateArn issueCertificateOutput) in
  (* Wait until certificate is ready *)
  arn ← d_Id;
  let getCertificateInput := {|
    GetCertificateInput.CertificateArn := Some certificateArn;
    GetCertificateInput.CertificateAuthorityArn := Some arn
  |} in
  err ← call_WaitUntilCertificateIssued getCertificateInput;
  check ("error waiting for ACMPCA to issue Certificate " +:+ quote certificateArn +:+ ": ") err (
  r ← call_GetCertificate getCertificateInput;
  check ("error retrieving ACMPCA Certificate " +:+ quote certificateArn +:+ ": ") r.2 (
  getCertificateOutput ← lift (deref r.1);
  (* Import certificate to CA *)
  arn ← d_Id;
  let importCertificateAuthorityCertificateInput := {|
    ImportCertificateAuthorityCertificateInput.CertificateAuthorityArn := Some arn;
    ImportCertificateAuthorityCertificateInput.Certificate :=
      StringValue (GetCertificateOutput.Certificate getCertificateOutput);
    ImportCertificateAuthorityCertificateInput.CertificateChain := None
  |} in
  r ← call_ImportCertificateAuthorityCertificate importCertificateAuthorityCertificateInput;
  arn ← d_Id;
  check ("error importing ACMPCA Certificate Authority Certificate " +:+ quote certificateArn
         +:+ " in ACMPCA Certificate Authority " +:+ quote arn +:+ ": ") r.2 (
  mret None))))).

(** [resourceAwsAcmpcaCertificateAuthorityRead(d, meta)]. *)
Definition resourceAwsAcmpcaCertificateAuthorityRead : M W (option error) :=
  arn ← d_Id;
  r ← call_DescribeCertificateAuthority arn;
  orelse (match r.2 with
          | Some err =>
            if isAWSErr err ErrCodeResourceNotFoundException ""
            then d_SetId "";; mret (Some None)
            else mret (Some (Some (Errorf ("error reading ACMPCA Certificate Authority: "
                                           +:+ Error err))))
          | None => mret None
          end) (
  describeCertificateAuthorityOutput ← lift (deref r.1);
  match DescribeCertificateAuthorityOutput.CertificateAuthority
          describeCertificateAuthorityOutput with
  | None => d_SetId "";; mret None
  | Some certificateAuthority =>
    d_Set CA "arn" (ptr_string (CertificateAuthority.Arn certificateAuthority));;
    err ← d_Set CA "certificate_authority_configuration"
            (VList (flattenAcmpcaCertificateAuthorityConfiguration
               (CertificateAuthority.CertificateAuthorityConfiguration certificateAuthority)));
    check "error setting tags: " err (
    d_Set CA "enabled"
      (VBool (negb (String.eqb (StringValue (CertificateAuthority.Status certificateAuthority))
                               CertificateAuthorityStatusDisabled)));;
    d_Set CA "not_after"
      (VString (TimeValueFormat (CertificateAuthority.NotAfter certificateAuthority)));;
    d_Set CA "not_before"
      (VString (TimeValueFormat (CertificateAuthority.NotBefore certificateAuthority)));;
    err ← d_Set CA "revocation_configuration"
            (VList (flattenAcmpcaRevocationConfiguration
               (CertificateAuthority.RevocationConfiguration certificateAuthority)));
    check "error setting tags: " err (
    d_Set CA "serial" (ptr_string (CertificateAuthority.Serial certificateAuthority));;
    d_Set CA "status" (ptr_string (CertificateAuthority.Status certificateAuthority));;
    d_Set CA "type" (ptr_string (CertificateAuthority.Type_ certificateAuthority));;
    arn ← d_Id;
    r ← call_GetCertificateAuthorityCertificate arn;
    orelse (match r.2 with
            | Some err =>
              if isAWSErr err ErrCodeResourceNotFoundException ""
              then d_SetId "";; mret (Some None)
              else if negb (isAWSErr err ErrCodeInvalidStateException "")
              then mret (Some (Some (Errorf
                     ("error reading ACMPCA Certificate Authority Certificate: " +:+ Error err))))
              else mret None
            | None => mret None
            end) (
    d_Set CA "certificate" (VString "");;
    d_Set CA "certificate_chain" (VString "");;
    match r.1 with
    | Some getCertificateAuthorityCertificateOutput =>
      d_Set CA "certificate" (ptr_string
        (GetCertificateAuthorityCertificateOutput.Certificate
           getCertificateAuthorityCertificateOutput));;
      d_Set CA "certificate_chain" (ptr_string
        (GetCertificateAuthorityCertificateOutput.CertificateChain
           getCertificateAuthorityCertificateOutput));;
      mret tt
    | None => mret tt
    end;;
    arn ← d_Id;
    r ← call_GetCertificateAuthorityCsr arn;
    orelse (match r.2 with
            | Some err =>
              if isAWSErr err ErrCodeResourceNotFoundException ""
              then d_SetId "";; mret (Some None)
              else if negb (isAWSErr err ErrCodeInvalidStateException "")
              then mret (Some (Some (Errorf
                     ("error reading ACMPCA Certificate Authority Certificate Signing Request: "
                      +:+ Error err))))
              else mret None
            | None => mret None
            end) (
    d_Set CA "certificate_signing_request" (VString "");;
    match r.1 with
    | Some getCertificateAuthorityCsrOutput =>
      d_Set CA "certificate_signing_request" (ptr_string
        (GetCertificateAuthorityCsrOutput.Csr getCertificateAuthorityCsrOutput));;
      mret tt
    | None => mret tt
    end;;
    arn ← d_Id;
    r ← call_AcmpcaListTags arn;
    match r.2 with
    | Some err =>
      arn ← d_Id;
      mret (Some (Errorf ("error listing tags for ACMPCA Certificate Authority (" +:+ arn
                          +:+ "): " +:+ Error err)))
    | None =>
      err ← d_Set CA "tags" (Map_ (IgnoreAws r.1));
      check "error setting tags: " err (mret None)
    end))))
  end).

(** [resourceAwsAcmpcaCertificateAuthorityCreate(d, meta)]. *)
Definition resourceAwsAcmpcaCertificateAuthorityCreate : M W (option error) :=
  type ← (v ← d_Get CA "type"; lift (as_string v));
  let isRootCA := String.eqb type CertificateAuthorityTypeRoot in
  orelse (if isRootCA then
            length_ok ← d_GetOk CA "validity_length";
            if negb length_ok.2
            then mret (Some (Some (Errorf
                   "validity_length must be set when creating a Certificate Authority with a self-signed root certificate")))
            else
              unit_ok ← d_GetOk CA "validity_unit";
              if negb unit_ok.2
              then mret (Some (Some (Errorf
                     "validity_unit must be set when creating a Certificate Authority with a self-signed root certificate")))
              else mret None
          else mret None) (
  tags ← (v ← d_Get CA "tags"; m ← lift (as_map v); t ← lift (New m); mret (IgnoreAws t));
  configuration ← (v ← d_Get CA "certificate_authority_configuration"; l ← lift (as_slice v);
                   lift (expandAcmpcaCertificateAuthorityConfiguration l));
  type ← (v ← d_Get CA "type"; lift (as_string v));
  token ← UniqueId;
  revocation ← (v ← d_Get CA "revocation_configuration"; l ← lift (as_slice v);
                lift (expandAcmpcaRevocationConfiguration l));
  let input := {|
    CreateCertificateAuthorityInput.CertificateAuthorityConfiguration := configuration;
    CreateCertificateAuthorityInput.CertificateAuthorityType := Some type;
    CreateCertificateAuthorityInput.IdempotencyToken := Some token;
    CreateCertificateAuthorityInput.RevocationConfiguration := revocation;
    CreateCertificateAuthorityInput.Tags := if bool_decide (0 < size tags)%nat then tags else ∅
  |} in
  r ← Retry budget 60 (
         r ← call_CreateCertificateAuthority input;
         match r.2 with
         | Some err =>
           if isAWSErr err "ValidationException" "Check your S3 bucket permissions and try again"
           then mret (r.1, Some (RetryableError err))
           else mret (r.1, Some (NonRetryableError err))
         | None => mret (r.1, None)
         end);
  r ← (if match r.2 with Some err => isResourceTimeoutError err | None => false end
       then call_CreateCertificateAuthority input
       else mret r);
  check "error creating ACMPCA Certificate Authority: " r.2 (
  output ← lift (deref r.1);
  d_SetId (StringValue (CreateCertificateAuthorityOutput.CertificateAuthorityArn output));;
  arn ← d_Id;
  timeout ← d_Timeout;
  let stateConf := {|
    Pending := [""; CertificateAuthorityStatusCreating];
    Target := [CertificateAuthorityStatusActive; CertificateAuthorityStatusPendingCertificate];
    Refresh := acmpcaCertificateAuthorityRefreshFunc arn;
    Timeout := timeout
  |} in
  waited ← WaitForState budget stateConf;
  arn ← d_Id;
  check ("error waiting for ACMPCA Certificate Authority " +:+ quote arn
         +:+ " to be active or pending certificate: ") waited.2 (
  (* If we request a ROOT CA, we'll ask AWS to self-sign right away *)
  err ← (if isRootCA then acmpcaCertificateAuthoritySelfSignCert else mret None);
  arn ← d_Id;
  check ("error self-signing ACMPCA CA Certificate for CA " +:+ quote arn
         +:+ " of type ROOT: ") err (
  resourceAwsAcmpcaCertificateAuthorityRead)))).

(** [resourceAwsAcmpcaCertificateAuthorityUpdate(d, meta)]. *)
Definition resourceAwsAcmpcaCertificateAuthorityUpdate : M W (option error) :=
  arn ← d_Id;
  let input := {|
    UpdateCertificateAuthorityInput.CertificateAuthorityArn := Some arn;
    UpdateCertificateAuthorityInput.RevocationConfiguration := None;
    UpdateCertificateAuthorityInput.Status := None
  |} in
  enabled_changed ← d_HasChange CA "enabled";
  input ← (if enabled_changed then
             enabled ← (v ← d_Get CA "enabled"; lift (as_bool v));
             mret {|
               UpdateCertificateAuthorityInput.CertificateAuthorityArn :=
                 UpdateCertificateAuthorityInput.CertificateAuthorityArn input;
               UpdateCertificateAuthorityInput.RevocationConfiguration :=
                 UpdateCertificateAuthorityInput.RevocationConfiguration input;
               UpdateCertificateAuthorityInput.Status :=
                 Some (if negb enabled then CertificateAuthorityStatusDisabled
                       else CertificateAuthorityStatusActive)
             |}
           else mret input);
  revocation_changed ← d_HasChange CA "revocation_configuration";
  input ← (if revocation_changed then
             revocation ← (v ← d_Get CA "revocation_configuration"; l ← lift (as_slice v);
                           lift (expandAcmpcaRevocationConfiguration l));
             mret {|
               UpdateCertificateAuthorityInput.CertificateAuthorityArn :=
                 UpdateCertificateAuthorityInput.CertificateAuthorityArn input;
               UpdateCertificateAuthorityInput.RevocationConfiguration := revocation;
               UpdateCertificateAuthorityInput.Status :=
                 UpdateCertificateAuthorityInput.Status input
             |}
           else mret input);
  let updateCertificateAuthority := enabled_changed || revocation_changed in
  orelse (if updateCertificateAuthority then
            r ← call_UpdateCertificateAuthority input;
            match r.2 with
            | Some err => mret (Some (Some (Errorf
                ("error updating ACMPCA Certificate Authority: " +:+ Error err))))
            | None => mret None
            end
          else mret None) (
  tags_changed ← d_HasChange CA "tags";
  orelse (if (tags_changed : bool) then
            change ← d_GetChange CA "tags";
            arn ← d_Id;
            err ← call_AcmpcaUpdateTags arn change.1 change.2;
            arn ← d_Id;
            match err with
            | Some err => mret (Some (Some (Errorf
                ("error updating ACMPCA Certificate Authority (" +:+ arn +:+ ") tags: "
                 +:+ Error err))))
            | None => mret None
            end
          else mret None) (
  resourceAwsAcmpcaCertificateAuthorityRead)).

(** [resourceAwsAcmpcaCertificateAuthorityDelete(d, meta)]. *)
Definition resourceAwsAcmpcaCertificateAuthorityDelete : M W (option error) :=
  arn ← d_Id;
  let input := {|
    DeleteCertificateAuthorityInput.CertificateAuthorityArn := Some arn;
    DeleteCertificateAuthorityInput.PermanentDeletionTimeInDays := None
  |} in
  days ← d_GetOk CA "permanent_deletion_time_in_days";
  input ← (if (days.2 : bool) then
             v ← lift (as_int days.1);
             mret {|
               DeleteCertificateAuthorityInput.CertificateAuthorityArn :=
                 DeleteCertificateAuthorityInput.CertificateAuthorityArn input;
               DeleteCertificateAuthorityInput.PermanentDeletionTimeInDays := Some v
             |}
           else mret input);
  r ← call_DeleteCertificateAuthority input;
  match r.2 with
  | Some err =>
    if isAWSErr err ErrCodeResourceNotFoundException ""
    then mret None
    else mret (Some (Errorf ("error deleting ACMPCA Certificate Authority: " +:+ Error err)))
  | None => mret None
  end.

(** [resourceAwsAcmpcaCertificateAuthorityCertificateAttachmentRead(d, meta)]. *)
Definition resourceAwsAcmpcaCertificateAuthorityCertificateAttachmentRead
  : M W (option error) :=
  caARN ← (v ← d_Get ATT "certificate_authority_arn"; lift (as_string v));
  r ← call_GetCertificateAuthorityCertificate caARN;
  match r.2 with
  | Some err =>
    if isAWSErr err ErrCodeResourceNotFoundException ""
    then d_SetId "";; mret None
    else if isAWSErr err ErrCodeInvalidStateException ""
    then d_SetId "";; mret None
    else mret (Some (Errorf
           ("error reading ACMPCA Certificate Authority Certificate from ACMPCA Certificate Authority "
            +:+ quote caARN +:+ ": " +:+ Error err)))
  | None =>
    getCertificateAuthorityCertificateOutput ← lift (deref r.1);
    d_Set ATT "certificate" (ptr_string
      (GetCertificateAuthorityCertificateOutput.Certificate
         getCertificateAuthorityCertificateOutput));;
    d_Set ATT "certificate_chain" (ptr_string
      (GetCertificateAuthorityCertificateOutput.CertificateChain
         getCertificateAuthorityCertificateOutput));;
    mret None
  end.

(** [resourceAwsAcmpcaCertificateAuthorityCertificateAttachmentCreate(d, meta)]. *)
Definition resourceAwsAcmpcaCertificateAuthorityCertificateAttachmentCreate
  : M W (option error) :=
  caARN ← (v ← d_Get ATT "certificate_authority_arn"; lift (as_string v));
  (* Attach the certificate to the CA by importing it *)
  certificate_body ← (v ← d_Get ATT "certificate_body"; lift (as_string v));
  let input := {|
    ImportCertificateAuthorityCertificateInput.Certificate := certificate_body;
    ImportCertificateAuthorityCertificateInput.CertificateAuthorityArn := Some caARN;
    ImportCertificateAuthorityCertificateInput.CertificateChain := None
  |} in
  chain ← d_GetOk ATT "certificate_chain";
  input ← (if (chain.2 : bool) then
             c ← lift (as_string chain.1);
             mret {|
               ImportCertificateAuthorityCertificateInput.Certificate :=
                 ImportCertificateAuthorityCertificateInput.Certificate input;
               ImportCertificateAuthorityCertificateInput.CertificateAuthorityArn :=
                 ImportCertificateAuthorityCertificateInput.CertificateAuthorityArn input;
               ImportCertificateAuthorityCertificateInput.CertificateChain := Some c
             |}
           else mret input);
  r ← call_ImportCertificateAuthorityCertificate input;
  check "Error importing ACMPCA Certificate Authority Certificate: " r.2 (
  id ← PrefixedUniqueId (caARN +:+ "-");
  d_SetId id;;
  resourceAwsAcmpcaCertificateAuthorityCertificateAttachmentRead).

(** [resourceAwsAcmpcaCertificateAuthorityCertificateAttachmentDelete(d, meta)]:
    reads the ARN for the warning it logs and returns nil. *)
Definition resourceAwsAcmpcaCertificateAuthorityCertificateAttachmentDelete
  : M W (option error) :=
  caARN ← (v ← d_Get ATT "certificate_authority_arn"; lift (as_string v));
  mret None.

End Provider.

(** ** A scripted service

    A small service to run the resource functions against: it holds at
    most one authority, fails the next create calls with the errors queued
    in [create_errors], and reports the statuses of [status_script] one
    describe call after the other (the last one stays). *)

Record Fake := {
  create_errors : list error;
  present : bool;
  status_script : list string;
  csr : option string;
  certificate : option string;
  tags : KeyValueTags
}.

Definition not_found : error :=
  AWSError ErrCodeResourceNotFoundException "no such certificate authority".
Definition invalid_state : error :=
  AWSError ErrCodeInvalidStateException "not in the correct state".
Definition bucket_permissions : error :=
  AWSError "ValidationException"
    "The ACM Private CA service account requires getBucketAcl permissions for your S3 bucket. Check your S3 bucket permissions and try again.".
Definition access_denied : error := AWSError "AccessDeniedException" "not authorized".

Definition fake_arn : string := "arn:aws:acm-pca:eu-west-1:1:certificate-authority/1".

Definition fake_authority (status : string) : CertificateAuthority.t := {|
  CertificateAuthority.Arn := Some fake_arn;
  CertificateAuthority.CertificateAuthorityConfiguration := None;
  CertificateAuthority.NotAfter := None;
  CertificateAuthority.NotBefore := None;
  CertificateAuthority.RevocationConfiguration := None;
  CertificateAuthority.Serial := None;
  CertificateAuthority.Status := Some status;
  CertificateAuthority.Type_ := None
|}.

Definition fake_created (w : Fake) (errs : list error) (p : bool) : Fake :=
  {| create_errors := errs; present := p; status_script := status_script w;
     csr := csr w; certificate := certificate w; tags := tags w |}.
Definition fake_polled (w : Fake) (script : list string) : Fake :=
  {| create_errors := create_errors w; present := present w; status_script := script;
     csr := csr w; certificate := certificate w; tags := tags w |}.
Definition fake_imported (w : Fake) (c : string) : Fake :=
  {| create_errors := create_errors w; present := present w;
     status_script := status_script w; csr := csr w; certificate := Some c; tags := tags w |}.

Definition described (ca : option CertificateAuthority.t)
  : option DescribeCertificateAuthorityOutput.t :=
  Some {| DescribeCertificateAuthorityOutput.CertificateAuthority := ca |}.

Definition fake : ACMPCA Fake := {|
  CreateCertificateAuthority := fun _ w =>
    match create_errors w with
    | e :: rest =>
      ((Some {| CreateCertificateAuthorityOutput.CertificateAuthorityArn := None |}, Some e),
       fake_created w rest (present w))
    | [] =>
      ((Some {| CreateCertificateAuthorityOutput.CertificateAuthorityArn := Some fake_arn |}, None),
       fake_created w [] true)
    end;
  DescribeCertificateAuthority := fun _ w =>
    if present w then
      match status_script w with
      | s :: (_ :: _) as rest => ((described (Some (fake_authority s)), None), fake_polled w rest)
      | [s] => ((described (Some (fake_authority s)), None), w)
      | [] => ((described None, None), w)
      end
    else ((described None, Some not_found), w);
  UpdateCertificateAuthority := fun _ w =>
    if present w then ((Some tt, None), w) else ((Some tt, Some not_found), w);
  DeleteCertificateAuthority := fun _ w =>
    if present w then ((Some tt, None), fake_created w (create_errors w) false)
    else ((Some tt, Some not_found), w);
  GetCertificateAuthorityCertificate := fun _ w =>
    if present w then
      match certificate w with
      | Some c =>
        ((Some {| GetCertificateAuthorityCertificateOutput.Certificate := Some c;
                  GetCertificateAuthorityCertificateOutput.CertificateChain := None |}, None), w)
      | None =>
        ((Some {| GetCertificateAuthorityCertificateOutput.Certificate := None;
                  GetCertificateAuthorityCertificateOutput.CertificateChain := None |},
          Some invalid_state), w)
      end
    else ((None, Some not_found), w);
  GetCertificateAuthorityCsr := fun _ w =>
    if present w then ((Some {| GetCertificateAuthorityCsrOutput.Csr := csr w |}, None), w)
    else ((None, Some not_found), w);
  IssueCertificate := fun _ w =>
    ((Some {| IssueCertificateOutput.CertificateArn := Some "certificate/1" |}, None), w);
  WaitUntilCertificateIssued := fun _ w => (None, w);
  GetCertificate := fun _ w =>
    ((Some {| GetCertificateOutput.Certificate := Some "PEM";
              GetCertificateOutput.CertificateChain := None |}, None), w);
  ImportCertificateAuthorityCertificate := fun i w =>
    if present w
    then ((Some tt, None),
          fake_imported w (ImportCertificateAuthorityCertificateInput.Certificate i))
    else ((Some tt, Some not_found), w);
  AcmpcaListTags := fun _ w => ((tags w, None), w);
  AcmpcaUpdateTags := fun _ _ _ w => (None, w)
|}.

(** Room for three further attempts and five further polls; the retry
    primitive reports a bare timeout when its budget is used up. *)
Definition fake_budget : Budget := {|
  retries_within := fun _ => 3%nat;
  polls_within := fun _ => 5%nat;
  retry_timeout := fun _ => TimeoutError None
|}.

(** A timeout error that carries no last error. *)
Definition bare_timeout (e : error) : bool :=
  match e with TimeoutError None => true | _ => false end.

Definition subject_block : value :=
  VMap (<["common_name" := VString "terraformtesting.com"]> ∅).
Definition configuration_block : value :=
  VMap (<["key_algorithm" := VString "RSA_4096"]> (
        <["signing_algorithm" := VString "SHA512WITHRSA"]> (
        <["subject" := VList [subject_block]]> ∅))).

Definition fresh_data (attrs : gmap string value) : ResourceData :=
  {| rd_id := ""; rd_state := ∅; rd_attrs := attrs; rd_timeout_create := 60 |}.

(** A subordinate authority without validity fields. *)
Definition subordinate_attrs : gmap string value :=
  <["certificate_authority_configuration" := VList [configuration_block]]> ∅.
(** A root authority valid for one year. *)
Definition root_attrs : gmap string value :=
  <["type" := VString "ROOT"]> (
  <["validity_length" := VInt 1]> (
  <["validity_unit" := VString "YEARS"]> subordinate_attrs)).
(** A root authority whose validity length is written out as zero. *)
Definition root_zero_attrs : gmap string value :=
  <["validity_length" := VInt 0]> root_attrs.

Definition nothing_yet : Fake := {|
  create_errors := []; present := false;
  status_script := ["CREATING"; "PENDING_CERTIFICATE"];
  csr := Some "CSR"; certificate := None; tags := ∅
|}.

Definition start (d : ResourceData) (w : Fake) : st Fake :=
  {| rd := d; world := w; events := []; uniq := 0 |}.

(** ** Notions used in the statements *)

(** A pointer field that is not a pointer to the empty string. *)
Definition set_string (p : option string) : bool :=
  match p with Some s => negb (String.eqb s "") | None => true end.

(** What [expand] makes of a flattened string field. *)
Definition nonempty (p : option string) : option string :=
  match p with Some s => if String.eqb s "" then None else Some s | None => None end.

(** Records as [expand] builds them: no field points to an empty string,
    the algorithms and the CRL switch are set, and an expiration, when
    set, is positive. *)
Definition normal_subject (s : ASN1Subject) : bool :=
  set_string (CommonName s) && set_string (Country s)
  && set_string (DistinguishedNameQualifier s) && set_string (GenerationQualifier s)
  && set_string (GivenName s) && set_string (Initials s) && set_string (Locality s)
  && set_string (Organization s) && set_string (OrganizationalUnit s)
  && set_string (Pseudonym s) && set_string (State s) && set_string (Surname s)
  && set_string (Title s).

Definition normal_configuration (c : CertificateAuthorityConfiguration) : bool :=
  bool_decide (is_Some (KeyAlgorithm c)) && bool_decide (is_Some (SigningAlgorithm c))
  && match Subject c with Some s => normal_subject s | None => true end.

Definition normal_crl (c : CrlConfiguration) : bool :=
  set_string (CustomCname c) && bool_decide (is_Some (Enabled c))
  && match ExpirationInDays c with Some z => 0 <? z | None => true end
  && set_string (S3BucketName c).

Definition normal_revocation (r : RevocationConfiguration) : bool :=
  match CrlConfiguration_ r with Some c => normal_crl c | None => true end.

Definition no_subject_fields : ASN1Subject := {|
  CommonName := None; Country := None; DistinguishedNameQualifier := None;
  GenerationQualifier := None; GivenName := None; Initials := None; Locality := None;
  Organization := None; OrganizationalUnit := None; Pseudonym := None; State := None;
  Surname := None; Title := None
|}.

(** A subject whose common name points to the empty string. *)
Definition subject_with_empty_name : ASN1Subject := {|
  CommonName := Some ""; Country := None; DistinguishedNameQualifier := None;
  GenerationQualifier := None; GivenName := None; Initials := None; Locality := None;
  Organization := None; OrganizationalUnit := None; Pseudonym := None; State := None;
  Surname := None; Title := None
|}.

(** A configuration that names no key algorithm. *)
Definition configuration_without_key : CertificateAuthorityConfiguration :=
  {| KeyAlgorithm := None; SigningAlgorithm := Some "SHA512WITHRSA"; Subject := None |}.

(** A revocation block whose CRL block leaves the switch unset. *)
Definition revocation_with_unset_switch : RevocationConfiguration :=
  {| CrlConfiguration_ := Some {| CustomCname := None; Enabled := None;
                                  ExpirationInDays := Some 7; S3BucketName := None |} |}.

Definition sample_subject : ASN1Subject := {|
  CommonName := Some "terraformtesting.com"; Country := Some "US";
  DistinguishedNameQualifier := None; GenerationQualifier := None; GivenName := None;
  Initials := None; Locality := None; Organization := Some "Example";
  OrganizationalUnit := None; Pseudonym := None; State := None; Surname := None;
  Title := None
|}.
Definition sample_configuration : CertificateAuthorityConfiguration :=
  {| KeyAlgorithm := Some "RSA_4096"; SigningAlgorithm := Some "SHA512WITHRSA";
     Subject := Some sample_subject |}.
Definition sample_revocation : RevocationConfiguration :=
  {| CrlConfiguration_ := Some {| CustomCname := Some "crl.example.com"; Enabled := Some true;
                                  ExpirationInDays := Some 7;
                                  S3BucketName := Some "bucket" |} |}.

(** *** Sample runs *)

(** The service of [nothing_yet] with failures queued for the create
    calls to come. *)
Definition failing_first (errs : list error) : Fake := fake_created nothing_yet errs false.

Definition root_run : st Fake := start (fresh_data root_attrs) nothing_yet.
Definition root_zero_run : st Fake := start (fresh_data root_zero_attrs) nothing_yet.
Definition subordinate_run (errs : list error) : st Fake :=
  start (fresh_data subordinate_attrs) (failing_first errs).

(** The request Create builds from the sample configuration. *)
Definition sample_request (type token : string) : CreateCertificateAuthorityInput.t := {|
  CreateCertificateAuthorityInput.CertificateAuthorityConfiguration :=
    Some {| KeyAlgorithm := Some "RSA_4096"; SigningAlgorithm := Some "SHA512WITHRSA";
            Subject := Some {|
              CommonName := Some "terraformtesting.com"; Country := None;
              DistinguishedNameQualifier := None; GenerationQualifier := None;
              GivenName := None; Initials := None; Locality := None; Organization := None;
              OrganizationalUnit := None; Pseudonym := None; State := None;
              Surname := None; Title := None |} |};
  CreateCertificateAuthorityInput.CertificateAuthorityType := Some type;
  CreateCertificateAuthorityInput.IdempotencyToken := Some token;
  CreateCertificateAuthorityInput.RevocationConfiguration := None;
  CreateCertificateAuthorityInput.Tags := ∅
|}.

(** An active authority with an imported certificate. *)
Definition active_authority : Fake := {|
  create_errors := []; present := true; status_script := ["ACTIVE"];
  csr := Some "CSR"; certificate := Some "PEM"; tags := ∅
|}.

(** Resource data of an authority that is being switched off. *)
Definition disabling : ResourceData := {|
  rd_id := fake_arn;
  rd_state := <["enabled" := VBool true]> subordinate_attrs;
  rd_attrs := <["enabled" := VBool false]> subordinate_attrs;
  rd_timeout_create := 60
|}.


(** Resource data of an authority the service no longer has. *)
Definition vanished : ResourceData := {|
  rd_id := fake_arn; rd_state := subordinate_attrs; rd_attrs := subordinate_attrs;
  rd_timeout_create := 60
|}.

(** Resource data of an attachment after its Create. *)
Definition attached : ResourceData := {|
  rd_id := fake_arn +:+ "-1";
  rd_state := ∅;
  rd_attrs := <["certificate_authority_arn" := VString fake_arn]> (
              <["certificate_body" := VString "BODY"]> ∅);
  rd_timeout_create := 60
|}.

(** The create calls of a run, each with the error it came back with. *)
Definition create_results (l : list Event) : list (option error) :=
  omap (fun ev => match ev with
                  | Remote (CreateCertificateAuthorityCall _) err => Some err
                  | _ => None
                  end) l.

(** *** Runs and their events *)

(** The state a remote call leaves behind. *)
Definition after_call {W} (s : st W) (w : W) (c : Call) (err : option error) : st W :=
  {| rd := rd s; world := w; events := events s ++ [Remote c err]; uniq := uniq s |}.

(** The service answers with an error that [isAWSErr] recognises as
    resource-not-found. *)
Definition reports_absent (err : option error) : Prop :=
  ∃ e, err = Some e ∧ isAWSErr e ErrCodeResourceNotFoundException "" = true.

(** [spec φ m Q]: whatever the state, the events [m] adds to the trace all
    satisfy [φ], also when it panics, and a value it returns satisfies
    [Q]. *)
Definition spec {W A} (φ : Event → Prop) (m : M W A) (Q : A → Prop) : Prop :=
  ∀ s, (∃ l, events (final (m s)) = events s ++ l ∧ Forall φ l)
       ∧ (∀ a s', m s = Done a s' → Q a).

(** Events that are neither a create call, nor an update call, nor a
    write to the tag registry. *)
Definition quiet (ev : Event) : Prop :=
  match ev with
  | Remote (CreateCertificateAuthorityCall _) _
  | Remote (UpdateCertificateAuthorityCall _) _
  | Remote (UpdateTagsCall _ _ _) _ => False
  | _ => True
  end.

(** The two errors of the precondition check of Create. *)
Definition validation_error (e : error) : Prop :=
  e = Errorf "validity_length must be set when creating a Certificate Authority with a self-signed root certificate"
  ∨ e = Errorf "validity_unit must be set when creating a Certificate Authority with a self-signed root certificate".

(** A result of Create other than these two errors. *)
Definition not_validation (r : option error) : Prop :=
  ∀ e, r = Some e → ¬ validation_error e.

(** The events a run adds to the trace of the state it starts in. *)
Definition new_events {W A} (s : st W) (o : outcome W A) : list Event :=
  drop (length (events s)) (events (final o)).


Definition slice_of (v : value) : list value :=
  match v with VList l => l | _ => [] end.
Definition bool_of (v : value) : bool :=
  match v with VBool b => b | _ => false end.

(** The revocation configuration Update builds for its request, lines 488
    to 491: the expansion of [revocation_configuration] when that changed,
    which panics on a block that is not a map, and nothing otherwise. *)
Definition update_revocation (d : ResourceData) : run (option RevocationConfiguration) :=
  if HasChange resourceAwsAcmpcaCertificateAuthority d "revocation_configuration"
  then expandAcmpcaRevocationConfiguration
         (slice_of (Get resourceAwsAcmpcaCertificateAuthority d "revocation_configuration"))
  else Ret None.

(** The request Update sends when [enabled] or [revocation_configuration]
    changed. *)
Definition update_request (d : ResourceData) (revocation : option RevocationConfiguration)
  : UpdateCertificateAuthorityInput.t := {|
  UpdateCertificateAuthorityInput.CertificateAuthorityArn := Some (rd_id d);
  UpdateCertificateAuthorityInput.RevocationConfiguration :=
    if HasChange resourceAwsAcmpcaCertificateAuthority d "revocation_configuration"
    then revocation else None;
  UpdateCertificateAuthorityInput.Status :=
    if HasChange resourceAwsAcmpcaCertificateAuthority d "enabled"
    then Some (if bool_of (Get resourceAwsAcmpcaCertificateAuthority d "enabled")
               then CertificateAuthorityStatusActive
               else CertificateAuthorityStatusDisabled)
    else None
|}.

(** Whether [type] reads as ROOT, and whether the validity fields are
    given with a value other than zero and the empty string. *)
Definition is_root (d : ResourceData) : bool :=
  bool_decide (Get resourceAwsAcmpcaCertificateAuthority d "type"
               = VString CertificateAuthorityTypeRoot).
Definition validity_length_given (d : ResourceData) : bool :=
  match rd_attrs d !! "validity_length" with
  | Some (VInt z) => negb (z =? 0)
  | _ => false
  end.
Definition validity_unit_given (d : ResourceData) : bool :=
  match rd_attrs d !! "validity_unit" with
  | Some (VString u) => negb (String.eqb u "")
  | _ => false
  end.

(** The signature of the transient failure of the create call. *)
Definition transient (e : error) : bool :=
  isAWSErr e "ValidationException" "Check your S3 bucket permissions and try again".

(** The request of the create call, lines 300 to 311 of Create. *)
Definition create_request (d : ResourceData) (token : string)
  : run CreateCertificateAuthorityInput.t :=
  m ← as_map (Get resourceAwsAcmpcaCertificateAuthority d "tags");
  t ← New m;
  l ← as_slice (Get resourceAwsAcmpcaCertificateAuthority d
                  "certificate_authority_configuration");
  configuration ← expandAcmpcaCertificateAuthorityConfiguration l;
  type ← as_string (Get resourceAwsAcmpcaCertificateAuthority d "type");
  l ← as_slice (Get resourceAwsAcmpcaCertificateAuthority d "revocation_configuration");
  revocation ← expandAcmpcaRevocationConfiguration l;
  Ret {|
    CreateCertificateAuthorityInput.CertificateAuthorityConfiguration := configuration;
    CreateCertificateAuthorityInput.CertificateAuthorityType := Some type;
    CreateCertificateAuthorityInput.IdempotencyToken := Some token;
    CreateCertificateAuthorityInput.RevocationConfiguration := revocation;
    CreateCertificateAuthorityInput.Tags :=
      if bool_decide (0 < size (IgnoreAws t))%nat then IgnoreAws t else ∅
  |}.

(** The precondition of Create fails: a ROOT authority without both
    validity fields. *)
Definition validity_missing (d : ResourceData) : bool :=
  is_root d && negb (validity_length_given d && validity_unit_given d).

(** A create call with the given request, and the error it came back
    with. *)
Definition attempt (input : CreateCertificateAuthorityInput.t) (err : option error) : Event :=
  Remote (CreateCertificateAuthorityCall input) err.

(** What the closure handed to [resource.Retry] makes of the error of the
    create call. *)
Definition classify (err : option error) : option RetryError :=
  match err with
  | Some e => Some (if transient e then RetryableError e else NonRetryableError e)
  | None => None
  end.

(** *** Notions of the further properties *)



(** The request Delete sends: the retention days are carried when they
    read as a value other than zero. *)
Definition delete_request (d : ResourceData) : DeleteCertificateAuthorityInput.t := {|
  DeleteCertificateAuthorityInput.CertificateAuthorityArn := Some (rd_id d);
  DeleteCertificateAuthorityInput.PermanentDeletionTimeInDays :=
    match Get resourceAwsAcmpcaCertificateAuthority d "permanent_deletion_time_in_days" with
    | VInt z => if z =? 0 then None else Some z
    | _ => None
    end
|}.

(** What Delete returns for the error of its call. *)
Definition delete_result (err : option error) : option error :=
  match err with
  | Some e =>
    if isAWSErr e ErrCodeResourceNotFoundException "" then None
    else Some (Errorf ("error deleting ACMPCA Certificate Authority: " +:+ Error e))
  | None => None
  end.

(** The request the attachment's Create sends: the chain is carried when
    it reads as a string other than the empty one. *)
Definition import_request (d : ResourceData) : ImportCertificateAuthorityCertificateInput.t := {|
  ImportCertificateAuthorityCertificateInput.Certificate :=
    tag_text (Get resourceAwsAcmpcaCertificateAuthorityCertificateAttachment d
                "certificate_body");
  ImportCertificateAuthorityCertificateInput.CertificateAuthorityArn :=
    Some (tag_text (Get resourceAwsAcmpcaCertificateAuthorityCertificateAttachment d
                      "certificate_authority_arn"));
  ImportCertificateAuthorityCertificateInput.CertificateChain :=
    match Get resourceAwsAcmpcaCertificateAuthorityCertificateAttachment d
            "certificate_chain" with
    | VString c => if String.eqb c "" then None else Some c
    | _ => None
    end
|}.

(** The identifier the attachment's Create draws: the authority ARN, a
    dash and the unique suffix. *)
Definition attachment_id (d : ResourceData) (n : nat) : string :=
  unique_id (tag_text (Get resourceAwsAcmpcaCertificateAuthorityCertificateAttachment d
                         "certificate_authority_arn") +:+ "-") n.

(** The error is one of the two that the attachment's Read takes for the
    authority being gone or still waiting for its certificate. *)
Definition attachment_gone (err : error) : bool :=
  isAWSErr err ErrCodeResourceNotFoundException ""
  || isAWSErr err ErrCodeInvalidStateException "".

(** The calls of Read, in the order of the source, and the keys it hands
    to [d.Set]. *)
Definition read_calls (arn : string) : list Call :=
  [DescribeCertificateAuthorityCall arn; GetCertificateAuthorityCertificateCall arn;
   GetCertificateAuthorityCsrCall arn; ListTagsCall arn].

Definition read_keys : list string :=
  ["arn"; "certificate_authority_configuration"; "enabled"; "not_after"; "not_before";
   "revocation_configuration"; "serial"; "status"; "type"; "certificate";
   "certificate_chain"; "certificate_signing_request"; "tags"].

Definition read_writes (k : string) : bool := bool_decide (k ∈ read_keys).

(** The event is the given call, with whatever error. *)
Definition is_call (ev : Event) (c : Call) : Prop := ∃ err, ev = Remote c err.

(** What a run returned, if it did not panic. *)
Definition returned {W A} (o : outcome W A) : option A :=
  match o with Done a _ => Some a | Panicked _ => None end.

(** What every run of Read keeps to, from the state [s] it starts in: it
    makes the first [n] of its four calls, in order and for the identifier
    it started with, and nothing else; it leaves the attributes alone that
    are not among its keys; it keeps the identifier, or clears it and
    returns nil; and it returns nil only after all four calls or with the
    identifier cleared. *)
Definition read_outcome {W} (s : st W) (o : outcome W (option error)) : Prop :=
  ∃ n, (1 ≤ n ≤ 4)%nat
       ∧ Forall2 is_call (new_events s o) (take n (read_calls (rd_id (rd s))))
       ∧ (∀ k, read_writes k = false →
               rd_attrs (rd (final o)) !! k = rd_attrs (rd s) !! k)
       ∧ (rd_id (rd (final o)) = rd_id (rd s)
          ∨ rd_id (rd (final o)) = "" ∧ returned o = Some None)
       ∧ (returned o = Some None → n = 4%nat ∨ rd_id (rd (final o)) = "").

(** An error of the certificate or CSR fetch that Read passes over: none,
    or one that reads as invalid-state and not as not-found. *)
Definition tolerated (err : option error) : bool :=
  match err with
  | None => true
  | Some e =>
    negb (isAWSErr e ErrCodeResourceNotFoundException "")
    && isAWSErr e ErrCodeInvalidStateException ""
  end.

(** Events before the first step of the self-sign sequence that changes
    anything: no certificate is issued, awaited, fetched or imported. *)
Definition before_issuing (ev : Event) : Prop :=
  match ev with
  | Remote (IssueCertificateCall _) _
  | Remote (WaitUntilCertificateIssuedCall _) _
  | Remote (GetCertificateCall _) _
  | Remote (ImportCertificateAuthorityCertificateCall _) _ => False
  | _ => True
  end.

(** Resource data of an attachment before its Create. *)
Definition attaching : ResourceData := fresh_data (rd_attrs attached).

(** The scripted service with a certificate fetch that lags behind: it
    reports the authority as waiting for its certificate whatever was
    imported. *)
Definition lagging : ACMPCA Fake := {|
  CreateCertificateAuthority := CreateCertificateAuthority fake;
  DescribeCertificateAuthority := DescribeCertificateAuthority fake;
  UpdateCertificateAuthority := UpdateCertificateAuthority fake;
  DeleteCertificateAuthority := DeleteCertificateAuthority fake;
  GetCertificateAuthorityCertificate := fun _ w => ((None, Some invalid_state), w);
  GetCertificateAuthorityCsr := GetCertificateAuthorityCsr fake;
  IssueCertificate := IssueCertificate fake;
  WaitUntilCertificateIssued := WaitUntilCertificateIssued fake;
  GetCertificate := GetCertificate fake;
  ImportCertificateAuthorityCertificate := ImportCertificateAuthorityCertificate fake;
  AcmpcaListTags := AcmpcaListTags fake;
  AcmpcaUpdateTags := AcmpcaUpdateTags fake
|}.

(** * Properties *)

(** ** ConfigTranscoder *)

Lemma nonempty_set (p : option string) : set_string p = true → nonempty p = p.
Proof.
  destruct p as [s|]; simpl; [|done].
  destruct (String.eqb s ""); [discriminate | done].
Qed.

Lemma opt_string_field_flat (m : gmap string value) (k : string) (p : option string) :
  m !! k = Some (VString (StringValue p)) →
  opt_string_field m k = Ret (nonempty p).
Proof.
  intros Hk. unfold opt_string_field. rewrite Hk. simpl.
  destruct p as [s|]; reflexivity.
Qed.

Lemma pos_int_field_flat (m : gmap string value) (k : string) (p : option Z) :
  m !! k = Some (VInt (Int64Value p)) →
  pos_int_field m k = Ret (match p with Some z => if 0 <? z then Some z else None | None => None end).
Proof.
  intros Hk. unfold pos_int_field. rewrite Hk. simpl.
  destruct p as [z|]; reflexivity.
Qed.

Ltac flat_fields :=
  repeat (first [ erewrite opt_string_field_flat by (vm_compute; reflexivity)
                | erewrite pos_int_field_flat by (vm_compute; reflexivity) ];
          cbn [mbind run_bind]).

(** What the subject transcoders compose to: every field goes through
    [nonempty]. *)
Lemma expand_flatten_subject (s : ASN1Subject) :
  expandAcmpcaASN1Subject (flattenAcmpcaASN1Subject (Some s)) =
  Ret (Some {| CommonName := nonempty (CommonName s);
               Country := nonempty (Country s);
               DistinguishedNameQualifier := nonempty (DistinguishedNameQualifier s);
               GenerationQualifier := nonempty (GenerationQualifier s);
               GivenName := nonempty (GivenName s);
               Initials := nonempty (Initials s);
               Locality := nonempty (Locality s);
               Organization := nonempty (Organization s);
               OrganizationalUnit := nonempty (OrganizationalUnit s);
               Pseudonym := nonempty (Pseudonym s);
               State := nonempty (State s);
               Surname := nonempty (Surname s);
               Title := nonempty (Title s) |}).
Proof.
  unfold expandAcmpcaASN1Subject, flattenAcmpcaASN1Subject.
  cbn [as_map mbind run_bind]. flat_fields. reflexivity.
Qed.

Lemma expand_flatten_subject_normal (s : option ASN1Subject) :
  match s with Some s => normal_subject s = true | None => True end →
  expandAcmpcaASN1Subject (flattenAcmpcaASN1Subject s) = Ret s.
Proof.
  destruct s as [s|]; [|reflexivity].
  unfold normal_subject. rewrite !andb_true_iff. intros Hs.
  rewrite expand_flatten_subject. destruct_and!.
  rewrite !nonempty_set by assumption. by destruct s.
Qed.

Lemma expand_flatten_configuration_normal (c : CertificateAuthorityConfiguration) :
  normal_configuration c = true →
  expandAcmpcaCertificateAuthorityConfiguration
    (flattenAcmpcaCertificateAuthorityConfiguration (Some c)) = Ret (Some c).
Proof.
  unfold normal_configuration. rewrite !andb_true_iff, !bool_decide_eq_true.
  intros [[[ka Hka] [sa Hsa]] Hs].
  unfold expandAcmpcaCertificateAuthorityConfiguration,
    flattenAcmpcaCertificateAuthorityConfiguration.
  cbn [as_map mbind run_bind].
  replace (index _ "key_algorithm") with (VString (StringValue (KeyAlgorithm c)))
    by (vm_compute; reflexivity).
  replace (index _ "signing_algorithm") with (VString (StringValue (SigningAlgorithm c)))
    by (vm_compute; reflexivity).
  replace (index _ "subject") with (VList (flattenAcmpcaASN1Subject (Subject c)))
    by (vm_compute; reflexivity).
  cbn [as_string as_slice mbind run_bind].
  rewrite expand_flatten_subject_normal by (destruct (Subject c); done).
  cbn [mbind run_bind]. rewrite Hka, Hsa. destruct c; simpl in *; congruence.
Qed.

Lemma expand_flatten_crl_normal (c : option CrlConfiguration) :
  match c with Some c => normal_crl c = true | None => True end →
  expandAcmpcaCrlConfiguration (flattenAcmpcaCrlConfiguration c) = Ret c.
Proof.
  destruct c as [c|]; [|reflexivity].
  unfold normal_crl. rewrite !andb_true_iff, !bool_decide_eq_true.
  intros [[[Hcn [en Hen]] Hexp] Hs3].
  unfold expandAcmpcaCrlConfiguration, flattenAcmpcaCrlConfiguration.
  cbn [as_map mbind run_bind].
  replace (index _ "enabled") with (VBool (BoolValue (Enabled c)))
    by (vm_compute; reflexivity).
  cbn [as_bool mbind run_bind]. flat_fields.
  rewrite !nonempty_set by assumption. rewrite Hen. simpl.
  destruct c as [cn e [z|] s3]; simpl in *; [rewrite Hexp|]; congruence.
Qed.

Lemma expand_flatten_revocation_present (r : RevocationConfiguration) :
  ∃ r', expandAcmpcaRevocationConfiguration
          (flattenAcmpcaRevocationConfiguration (Some r)) = Ret (Some r').
Proof.
  unfold expandAcmpcaRevocationConfiguration, flattenAcmpcaRevocationConfiguration.
  cbn [as_map mbind run_bind].
  replace (index _ "crl_configuration")
    with (VList (flattenAcmpcaCrlConfiguration (CrlConfiguration_ r)))
    by (vm_compute; reflexivity).
  cbn [as_slice mbind run_bind].
  destruct (CrlConfiguration_ r) as [c|]; [|by eexists].
  unfold expandAcmpcaCrlConfiguration, flattenAcmpcaCrlConfiguration.
  cbn [as_map mbind run_bind].
  replace (index _ "enabled") with (VBool (BoolValue (Enabled c)))
    by (vm_compute; reflexivity).
  cbn [as_bool mbind run_bind]. flat_fields. by eexists.
Qed.

Lemma expand_flatten_revocation_normal (r : RevocationConfiguration) :
  normal_revocation r = true →
  expandAcmpcaRevocationConfiguration
    (flattenAcmpcaRevocationConfiguration (Some r)) = Ret (Some r).
Proof.
  unfold normal_revocation. intros Hr.
  unfold expandAcmpcaRevocationConfiguration, flattenAcmpcaRevocationConfiguration.
  cbn [as_map mbind run_bind].
  replace (index _ "crl_configuration")
    with (VList (flattenAcmpcaCrlConfiguration (CrlConfiguration_ r)))
    by (vm_compute; reflexivity).
  cbn [as_slice mbind run_bind].
  rewrite expand_flatten_crl_normal by (destruct (CrlConfiguration_ r); done).
  cbn [mbind run_bind]. by destruct r.
Qed.

(** C3 (amended). For a subject, a certificate authority configuration
    and a revocation configuration in the form [expand] produces (no field
    points to an empty string, both algorithms and the CRL switch are set,
    an expiration that is set is positive), expanding the flattened record
    gives the record back. Absence is kept in every case: nil flattens to
    the empty list and the empty list expands to nil, and a present block,
    normal or not, comes back as a present block. *)
Theorem expand_flatten_round_trip
    (s : ASN1Subject) (c : CertificateAuthorityConfiguration) (r : RevocationConfiguration) :
  normal_subject s = true →
  normal_configuration c = true →
  normal_revocation r = true →
  expandAcmpcaASN1Subject (flattenAcmpcaASN1Subject (Some s)) = Ret (Some s)
  ∧ expandAcmpcaCertificateAuthorityConfiguration
      (flattenAcmpcaCertificateAuthorityConfiguration (Some c)) = Ret (Some c)
  ∧ expandAcmpcaRevocationConfiguration
      (flattenAcmpcaRevocationConfiguration (Some r)) = Ret (Some r)
  ∧ flattenAcmpcaRevocationConfiguration None = []
  ∧ expandAcmpcaRevocationConfiguration (flattenAcmpcaRevocationConfiguration None) = Ret None
  ∧ expandAcmpcaASN1Subject (flattenAcmpcaASN1Subject None) = Ret None
  ∧ expandAcmpcaCertificateAuthorityConfiguration
      (flattenAcmpcaCertificateAuthorityConfiguration None) = Ret None
  ∧ (∀ x : RevocationConfiguration,
       ∃ x', expandAcmpcaRevocationConfiguration
               (flattenAcmpcaRevocationConfiguration (Some x)) = Ret (Some x')).
Proof.
  intros Hs Hc Hr. split_and!; try reflexivity.
  - by apply (expand_flatten_subject_normal (Some s)).
  - by apply expand_flatten_configuration_normal.
  - by apply expand_flatten_revocation_normal.
  - apply expand_flatten_revocation_present.
Qed.

(** The round trip on a sample subject, configuration and revocation
    block. *)
Lemma expand_flatten_round_trip_sample :
  normal_subject sample_subject = true
  ∧ normal_configuration sample_configuration = true
  ∧ normal_revocation sample_revocation = true
  ∧ expandAcmpcaASN1Subject (flattenAcmpcaASN1Subject (Some sample_subject))
    = Ret (Some sample_subject)
  ∧ expandAcmpcaCertificateAuthorityConfiguration
      (flattenAcmpcaCertificateAuthorityConfiguration (Some sample_configuration))
    = Ret (Some sample_configuration)
  ∧ expandAcmpcaRevocationConfiguration
      (flattenAcmpcaRevocationConfiguration (Some sample_revocation))
    = Ret (Some sample_revocation).
Proof.
  pose proof (expand_flatten_round_trip sample_subject sample_configuration
                sample_revocation eq_refl eq_refl eq_refl) as (Hs & Hc & Hr & _).
  split_and!; [reflexivity | reflexivity | reflexivity | exact Hs | exact Hc | exact Hr].
Defined.

(** C3 as stated fails: a subject field that points to the empty string
    comes back nil, a missing key algorithm comes back as a pointer to the
    empty string, and an unset CRL switch comes back as a pointer to
    [false]. *)
Lemma expand_flatten_not_identity :
  expandAcmpcaASN1Subject (flattenAcmpcaASN1Subject (Some subject_with_empty_name))
    = Ret (Some no_subject_fields)
  ∧ Some no_subject_fields ≠ Some subject_with_empty_name
  ∧ expandAcmpcaCertificateAuthorityConfiguration
      (flattenAcmpcaCertificateAuthorityConfiguration (Some configuration_without_key))
    ≠ Ret (Some configuration_without_key)
  ∧ expandAcmpcaRevocationConfiguration
      (flattenAcmpcaRevocationConfiguration (Some revocation_with_unset_switch))
    ≠ Ret (Some revocation_with_unset_switch).
Proof.
  split_and!.
  - vm_compute. reflexivity.
  - intros [=].
  - vm_compute. intros [=].
  - vm_compute. intros [=].
Qed.

(** ** Reading and writing resource data *)

Lemma Get_has_type (sch : gmap string Schema) (d : ResourceData) (k : string) (e : Schema) :
  sch !! k = Some e → has_type (Type_ e) (Get sch d k) = true.
Proof.
  intros He. unfold Get, read_field. rewrite He. cbv zeta.
  match goal with
  | |- context [if has_type _ ?v then _ else _] => destruct (has_type (Type_ e) v) eqn:Ht
  end; [done|]. by destruct (Type_ e).
Qed.

Lemma Get_string (sch : gmap string Schema) (d : ResourceData) (k : string) (e : Schema) :
  sch !! k = Some e → Type_ e = TypeString → ∃ s, Get sch d k = VString s.
Proof.
  intros He Ht. pose proof (Get_has_type sch d k e He) as H. rewrite Ht in H.
  destruct (Get sch d k); try discriminate. eauto.
Qed.

Lemma Get_int (sch : gmap string Schema) (d : ResourceData) (k : string) (e : Schema) :
  sch !! k = Some e → Type_ e = TypeInt → ∃ z, Get sch d k = VInt z.
Proof.
  intros He Ht. pose proof (Get_has_type sch d k e He) as H. rewrite Ht in H.
  destruct (Get sch d k); try discriminate. eauto.
Qed.

Lemma Get_bool (sch : gmap string Schema) (d : ResourceData) (k : string) (e : Schema) :
  sch !! k = Some e → Type_ e = TypeBool → ∃ b, Get sch d k = VBool b.
Proof.
  intros He Ht. pose proof (Get_has_type sch d k e He) as H. rewrite Ht in H.
  destruct (Get sch d k); try discriminate. eauto.
Qed.

Lemma Get_list (sch : gmap string Schema) (d : ResourceData) (k : string) (e : Schema) :
  sch !! k = Some e → Type_ e = TypeList → ∃ l, Get sch d k = VList l.
Proof.
  intros He Ht. pose proof (Get_has_type sch d k e He) as H. rewrite Ht in H.
  destruct (Get sch d k); try discriminate. eauto.
Qed.

Lemma Get_map (sch : gmap string Schema) (d : ResourceData) (k : string) (e : Schema) :
  sch !! k = Some e → Type_ e = TypeMap → ∃ m, Get sch d k = VMap m.
Proof.
  intros He Ht. pose proof (Get_has_type sch d k e He) as H. rewrite Ht in H.
  destruct (Get sch d k); try discriminate. eauto.
Qed.

(** A write leaves every other attribute alone, whether it lands or not. *)
Lemma Set_frame (sch : gmap string Schema) (d : ResourceData) (k k' : string) (v : value) :
  k ≠ k' → rd_attrs (Set_ sch d k v).1 !! k' = rd_attrs d !! k'.
Proof.
  intros Hk. unfold Set_. destruct (sch !! k) as [e|]; [|done].
  destruct (has_type _ _); [|done]. simpl. by rewrite lookup_insert_ne.
Qed.

Lemma Set_id (sch : gmap string Schema) (d : ResourceData) (k : string) (v : value) :
  rd_id (Set_ sch d k v).1 = rd_id d.
Proof.
  unfold Set_. destruct (sch !! k) as [e|]; [|done]. by destruct (has_type _ _).
Qed.

Lemma Set_ptr_string (sch : gmap string Schema) (d : ResourceData) (k : string)
    (p : option string) (e : Schema) :
  sch !! k = Some e → Type_ e = TypeString →
  rd_attrs (Set_ sch d k (ptr_string p)).1 !! k = Some (VString (StringValue p)).
Proof.
  intros He Ht. unfold Set_. rewrite He, Ht.
  destruct p; simpl; by rewrite lookup_insert_eq.
Qed.

Arguments Get : simpl never.
Arguments GetOk : simpl never.
Arguments Set_ : simpl never.
Arguments GetChange : simpl never.
Arguments HasChange : simpl never.
Opaque resourceAwsAcmpcaCertificateAuthority
       resourceAwsAcmpcaCertificateAuthorityCertificateAttachment.

(** Symbolic evaluation of monadic code up to the next remote answer or
    attribute read. *)
Ltac mred :=
  repeat (progress (
    unfold mbind, M_bind, mret, M_ret, get_d, put_d, lift, d_Get, d_GetOk, d_Set, d_SetId,
      d_Id, d_Timeout, d_HasChange, d_GetChange, orelse, check, remote, UniqueId,
      PrefixedUniqueId, call_CreateCertificateAuthority, call_DescribeCertificateAuthority,
      call_UpdateCertificateAuthority, call_DeleteCertificateAuthority,
      call_GetCertificateAuthorityCertificate, call_GetCertificateAuthorityCsr,
      call_IssueCertificate, call_WaitUntilCertificateIssued, call_GetCertificate,
      call_ImportCertificateAuthorityCertificate, call_AcmpcaListTags,
      call_AcmpcaUpdateTags;
    cbn beta iota zeta delta [rd world events uniq fst snd final negb andb orb
      as_string as_int as_bool as_slice as_map deref
      UpdateCertificateAuthorityInput.CertificateAuthorityArn
      UpdateCertificateAuthorityInput.RevocationConfiguration
      UpdateCertificateAuthorityInput.Status
      DeleteCertificateAuthorityInput.CertificateAuthorityArn
      DeleteCertificateAuthorityInput.PermanentDeletionTimeInDays
      ImportCertificateAuthorityCertificateInput.Certificate
      ImportCertificateAuthorityCertificateInput.CertificateAuthorityArn
      ImportCertificateAuthorityCertificateInput.CertificateChain])).

Section Properties.
Context {W : Type}.
Context (conn : ACMPCA W).
Context (budget : Budget).
Context (isResourceTimeoutError : error → bool).

Local Abbreviation CA := resourceAwsAcmpcaCertificateAuthority.
Local Abbreviation ATT := resourceAwsAcmpcaCertificateAuthorityCertificateAttachment.

(** ** CertificateAttachment *)

Lemma attachment_arn_string (d : ResourceData) :
  ∃ a, Get ATT d "certificate_authority_arn" = VString a.
Proof. by apply (Get_string ATT d _ (entry TypeString)). Qed.

Lemma attachment_delete_run (s : st W) :
  resourceAwsAcmpcaCertificateAuthorityCertificateAttachmentDelete s = Done None s.
Proof.
  unfold resourceAwsAcmpcaCertificateAuthorityCertificateAttachmentDelete.
  destruct (attachment_arn_string (rd s)) as [a Ha].
  mred. rewrite Ha. by mred.
Qed.

Lemma attachment_read_frame (s : st W) (k : string) :
  k ≠ "certificate_chain" → k ≠ "certificate" →
  rd_attrs (rd (final (resourceAwsAcmpcaCertificateAuthorityCertificateAttachmentRead conn s)))
    !! k = rd_attrs (rd s) !! k.
Proof.
  intros Hchain Hcert.
  unfold resourceAwsAcmpcaCertificateAuthorityCertificateAttachmentRead.
  destruct (attachment_arn_string (rd s)) as [a Ha].
  mred. rewrite Ha. mred.
  destruct (GetCertificateAuthorityCertificate conn a (world s)) as [[out err] w].
  mred. destruct err as [err|]; mred.
  - destruct (isAWSErr err ErrCodeResourceNotFoundException ""); mred; [done|].
    destruct (isAWSErr err ErrCodeInvalidStateException ""); by mred.
  - destruct out as [out|]; mred; [|done].
    by rewrite !Set_frame.
Qed.

Lemma attachment_read_chain (s : st W) (a : string)
    (out : GetCertificateAuthorityCertificateOutput.t) (w : W) :
  Get ATT (rd s) "certificate_authority_arn" = VString a →
  GetCertificateAuthorityCertificate conn a (world s) = ((Some out, None), w) →
  ∃ s', resourceAwsAcmpcaCertificateAuthorityCertificateAttachmentRead conn s = Done None s'
        ∧ rd_attrs (rd s') !! "certificate_chain"
          = Some (VString (StringValue
                    (GetCertificateAuthorityCertificateOutput.CertificateChain out))).
Proof.
  intros Ha Hget.
  unfold resourceAwsAcmpcaCertificateAuthorityCertificateAttachmentRead.
  mred. rewrite Ha. mred. rewrite Hget. mred.
  eexists; split; [reflexivity|]. cbn [rd].
  by apply (Set_ptr_string ATT _ _ _ (entry TypeString)).
Qed.

(** C9. Deleting an attachment returns nil and leaves the resource data,
    the service and the event trace exactly as they were: no remote call
    is issued, and whatever is read afterwards, through the attachment or
    through the authority, is what would have been read without it. *)
Theorem attachment_delete_noop (s : st W) :
  resourceAwsAcmpcaCertificateAuthorityCertificateAttachmentDelete s = Done None s
  ∧ (resourceAwsAcmpcaCertificateAuthorityCertificateAttachmentDelete ;;
     resourceAwsAcmpcaCertificateAuthorityCertificateAttachmentRead conn) s
    = resourceAwsAcmpcaCertificateAuthorityCertificateAttachmentRead conn s
  ∧ (resourceAwsAcmpcaCertificateAuthorityCertificateAttachmentDelete ;;
     resourceAwsAcmpcaCertificateAuthorityRead conn) s
    = resourceAwsAcmpcaCertificateAuthorityRead conn s.
Proof.
  split_and!.
  - apply attachment_delete_run.
  - unfold mbind at 1, M_bind at 1. by rewrite attachment_delete_run.
  - unfold mbind at 1, M_bind at 1. by rewrite attachment_delete_run.
Qed.

(** The key [certificate] that the attachment's Read hands to [d.Set] is
    not declared in the attachment's schema. *)
Lemma attachment_certificate_undeclared : ATT !! "certificate" = None.
Proof. vm_compute. reflexivity. Qed.

(** C10. The attachment's Read leaves every attribute other than
    [certificate_chain] and [certificate] as it found it, in particular
    [certificate_body] and [certificate_authority_arn]; when the service
    answers with a certificate, [certificate_chain] becomes the chain of
    that answer; Delete changes nothing at all. *)
Theorem attachment_read_delete_frame (s : st W) (k : string) :
  k ≠ "certificate_chain" → k ≠ "certificate" →
  rd_attrs (rd (final (resourceAwsAcmpcaCertificateAuthorityCertificateAttachmentRead conn s)))
    !! k = rd_attrs (rd s) !! k
  ∧ rd_attrs (rd (final (resourceAwsAcmpcaCertificateAuthorityCertificateAttachmentRead conn s)))
      !! "certificate_body" = rd_attrs (rd s) !! "certificate_body"
  ∧ rd_attrs (rd (final (resourceAwsAcmpcaCertificateAuthorityCertificateAttachmentRead conn s)))
      !! "certificate_authority_arn" = rd_attrs (rd s) !! "certificate_authority_arn"
  ∧ final (resourceAwsAcmpcaCertificateAuthorityCertificateAttachmentDelete s) = s
  ∧ (∀ a out w,
       Get ATT (rd s) "certificate_authority_arn" = VString a →
       GetCertificateAuthorityCertificate conn a (world s) = ((Some out, None), w) →
       ∃ s', resourceAwsAcmpcaCertificateAuthorityCertificateAttachmentRead conn s
             = Done None s'
             ∧ rd_attrs (rd s') !! "certificate_chain"
               = Some (VString (StringValue
                         (GetCertificateAuthorityCertificateOutput.CertificateChain out)))).
Proof.
  intros Hchain Hcert. split_and!.
  - by apply attachment_read_frame.
  - by apply attachment_read_frame.
  - by apply attachment_read_frame.
  - by rewrite attachment_delete_run.
  - intros a out w. apply attachment_read_chain.
Qed.

(** ** ActivationPoller *)

Lemma poll_absent_stops {R} (n : nat) (conf : StateChangeConf W R) (s s' : st W)
    (status : string) :
  Refresh conf s = Done (None, status, None) s' →
  poll_loop n conf s = Done (None, None) s'.
Proof.
  intros Hfetch. destruct n; simpl; unfold mbind, M_bind; by rewrite Hfetch.
Qed.

(** C6. The fetch function of the activation poll answers a not-found
    error of the describe call, and a response without an authority, with
    the empty result (nil entity, empty status, nil error), and every
    other describe error with that error; an authority is returned with
    its status. The empty result ends the poll at once, without error and
    without a further fetch. *)
Theorem refresh_reports_absence (arn : string) (s : st W) :
  let answer := (DescribeCertificateAuthority conn arn (world s)).1 in
  let s' := after_call s (DescribeCertificateAuthority conn arn (world s)).2
              (DescribeCertificateAuthorityCall arn) answer.2 in
  (∀ err, answer.2 = Some err →
     isAWSErr err ErrCodeResourceNotFoundException "" = true →
     acmpcaCertificateAuthorityRefreshFunc conn arn s = Done (None, "", None) s')
  ∧ (∀ err, answer.2 = Some err →
       isAWSErr err ErrCodeResourceNotFoundException "" = false →
       acmpcaCertificateAuthorityRefreshFunc conn arn s = Done (None, "", Some err) s')
  ∧ (answer = (None, None) →
     acmpcaCertificateAuthorityRefreshFunc conn arn s = Done (None, "", None) s')
  ∧ (answer = (described None, None) →
     acmpcaCertificateAuthorityRefreshFunc conn arn s = Done (None, "", None) s')
  ∧ (∀ certificateAuthority, answer = (described (Some certificateAuthority), None) →
       acmpcaCertificateAuthorityRefreshFunc conn arn s
       = Done (Some certificateAuthority,
               StringValue (CertificateAuthority.Status certificateAuthority), None) s')
  ∧ (∀ pending target timeout,
       acmpcaCertificateAuthorityRefreshFunc conn arn s = Done (None, "", None) s' →
       WaitForState budget
         {| Pending := pending; Target := target;
            Refresh := acmpcaCertificateAuthorityRefreshFunc conn arn;
            Timeout := timeout |} s
       = Done (None, None) s').
Proof.
  intros answer s'. subst s'. unfold after_call, acmpcaCertificateAuthorityRefreshFunc.
  split_and!.
  - intros err Herr Hnf. mred. fold answer. rewrite Herr. mred. by rewrite Hnf.
  - intros err Herr Hnf. mred. fold answer. rewrite Herr. mred. by rewrite Hnf.
  - intros Ha. mred. fold answer. by rewrite Ha.
  - intros Ha. mred. fold answer. by rewrite Ha.
  - intros ca Ha. mred. fold answer. by rewrite Ha.
  - intros pending target timeout Hfetch. unfold WaitForState.
    by apply poll_absent_stops with (status := "").
Qed.

(** ** CertificateAuthorityManager: absence *)

Lemma GetOk_fst (sch : gmap string Schema) (d : ResourceData) (k : string) :
  (GetOk sch d k).1 = Get sch d k.
Proof. unfold GetOk. by destruct (sch !! k). Qed.

Lemma read_absent (s : st W) :
  reports_absent (DescribeCertificateAuthority conn (rd_id (rd s)) (world s)).1.2 →
  ∃ s', resourceAwsAcmpcaCertificateAuthorityRead conn s = Done None s'
        ∧ rd_id (rd s') = ""
        ∧ rd_attrs (rd s') = rd_attrs (rd s).
Proof.
  intros (e & He & Hnf). unfold resourceAwsAcmpcaCertificateAuthorityRead.
  mred. rewrite He. mred. rewrite Hnf. mred. by eexists.
Qed.

Lemma delete_absent (s : st W) :
  (∀ input,
     DeleteCertificateAuthorityInput.CertificateAuthorityArn input = Some (rd_id (rd s)) →
     reports_absent (DeleteCertificateAuthority conn input (world s)).1.2) →
  ∃ s', resourceAwsAcmpcaCertificateAuthorityDelete conn s = Done None s'.
Proof.
  intros Habsent. unfold resourceAwsAcmpcaCertificateAuthorityDelete.
  destruct (Get_int CA (rd s) "permanent_deletion_time_in_days"
              (entry_default TypeInt (VInt 30)) eq_refl eq_refl) as [z Hz].
  mred. rewrite GetOk_fst, Hz.
  destruct (GetOk CA (rd s) "permanent_deletion_time_in_days").2; mred.
  - destruct (Habsent {|
        DeleteCertificateAuthorityInput.CertificateAuthorityArn := Some (rd_id (rd s));
        DeleteCertificateAuthorityInput.PermanentDeletionTimeInDays := Some z |} eq_refl)
      as (e & He & Hnf).
    rewrite He. mred. rewrite Hnf. by eexists.
  - destruct (Habsent {|
        DeleteCertificateAuthorityInput.CertificateAuthorityArn := Some (rd_id (rd s));
        DeleteCertificateAuthorityInput.PermanentDeletionTimeInDays := None |} eq_refl)
      as (e & He & Hnf).
    rewrite He. mred. rewrite Hnf. by eexists.
Qed.

(** C7. When the service reports the authority of [d.Id()] as not found,
    Read returns nil with the identifier cleared, and Delete returns nil;
    neither hands the not-found error on. *)
Theorem read_delete_absent (s : st W) :
  reports_absent (DescribeCertificateAuthority conn (rd_id (rd s)) (world s)).1.2 →
  (∀ input,
     DeleteCertificateAuthorityInput.CertificateAuthorityArn input = Some (rd_id (rd s)) →
     reports_absent (DeleteCertificateAuthority conn input (world s)).1.2) →
  (∃ s', resourceAwsAcmpcaCertificateAuthorityRead conn s = Done None s'
         ∧ rd_id (rd s') = "")
  ∧ (∃ s', resourceAwsAcmpcaCertificateAuthorityDelete conn s = Done None s').
Proof.
  intros Hdescribe Hdelete. split.
  - destruct (read_absent s Hdescribe) as (s' & Hrun & Hid & _). eauto.
  - by apply delete_absent.
Qed.

(** ** Events and results of a run *)

Lemma spec_ret {A} (φ : Event → Prop) (a : A) (Q : A → Prop) :
  Q a → spec φ (mret a : M W A) Q.
Proof.
  intros HQ s. split.
  - exists []. split; [by rewrite app_nil_r | constructor].
  - by intros a' s' [= <- _].
Qed.

Lemma spec_bind {A B} (φ : Event → Prop) (m : M W A) (f : A → M W B)
    (Q1 : A → Prop) (Q : B → Prop) :
  spec φ m Q1 → (∀ a, Q1 a → spec φ (f a) Q) → spec φ (m ≫= f) Q.
Proof.
  intros Hm Hf s. destruct (Hm s) as [(l1 & Hl1 & Hφ1) Hret].
  unfold mbind, M_bind. destruct (m s) as [a s1|s1] eqn:Hs.
  - destruct (Hf a (Hret a s1 eq_refl) s1) as [(l2 & Hl2 & Hφ2) Hret2].
    split; [|done]. exists (l1 ++ l2). split.
    + rewrite Hl2. simpl in Hl1. by rewrite Hl1, app_assoc.
    + by apply Forall_app.
  - split; [|done]. by exists l1.
Qed.

Lemma spec_bind_any {A B} (φ : Event → Prop) (m : M W A) (f : A → M W B) (Q : B → Prop) :
  spec φ m (fun _ => True) → (∀ a, spec φ (f a) Q) → spec φ (m ≫= f) Q.
Proof. intros Hm Hf. eapply spec_bind; [exact Hm | auto]. Qed.

Lemma spec_weaken {A} (φ : Event → Prop) (m : M W A) (Q Q' : A → Prop) :
  spec φ m Q → (∀ a, Q a → Q' a) → spec φ m Q'.
Proof.
  intros Hm HQ s. destruct (Hm s) as [Hev Hret]. split; [done|].
  intros a s' Hs. eauto.
Qed.

Lemma spec_quiet_step {A} (φ : Event → Prop) (m : M W A) (Q : A → Prop) :
  (∀ s, events (final (m s)) = events s) → (∀ a, Q a) → spec φ m Q.
Proof.
  intros Hev HQ s. split; [|auto].
  exists []. split; [by rewrite app_nil_r | constructor].
Qed.

Lemma spec_lift {A} (φ : Event → Prop) (r : run A) (Q : A → Prop) :
  (∀ a, Q a) → spec φ (lift r : M W A) Q.
Proof. apply spec_quiet_step. intros s. by destruct r. Qed.

Lemma spec_get_d (φ : Event → Prop) (Q : ResourceData → Prop) :
  (∀ d, Q d) → spec φ (get_d : M W ResourceData) Q.
Proof. by apply spec_quiet_step. Qed.

Lemma spec_put_d (φ : Event → Prop) (d : ResourceData) (Q : unit → Prop) :
  (∀ u, Q u) → spec φ (put_d d : M W unit) Q.
Proof. by apply spec_quiet_step. Qed.

Lemma spec_remote {A} (φ : Event → Prop) (c : Call) (op : W → A * W)
    (err_of : A → option error) (Q : A → Prop) :
  (∀ e, φ (Remote c e)) → (∀ a, Q a) → spec φ (remote (W:=W) c op err_of) Q.
Proof.
  intros Hφ HQ s. split; [|auto].
  eexists. split; [reflexivity|]. by repeat constructor.
Qed.

Lemma spec_fresh (φ : Event → Prop) (prefix : string) (Q : string → Prop) :
  (∀ id, φ (Fresh id)) → (∀ a, Q a) → spec φ (PrefixedUniqueId (W:=W) prefix) Q.
Proof.
  intros Hφ HQ s. split; [|auto].
  eexists. split; [reflexivity|]. by repeat constructor.
Qed.

Lemma not_validation_error_text (text : string) :
  not_validation (Some (Errorf ("error" +:+ text))).
Proof. intros e [= <-] [H|H]; discriminate H. Qed.

Lemma not_validation_Error_text (text : string) :
  not_validation (Some (Errorf ("Error" +:+ text))).
Proof. intros e [= <-] [H|H]; discriminate H. Qed.

Lemma not_validation_nil : not_validation None.
Proof. by intros e. Qed.

Lemma spec_orelse (φ : Event → Prop) (m : M W (option (option error)))
    (k : M W (option error)) (Q : option error → Prop) :
  spec φ m (fun r => ∀ ret, r = Some ret → Q ret) → spec φ k Q → spec φ (orelse m k) Q.
Proof.
  intros Hm Hk. unfold orelse. eapply spec_bind; [exact Hm|].
  intros [ret|] Hret; [|done]. apply spec_ret. by apply Hret.
Qed.

Ltac head_of t :=
  lazymatch t with
  | ?f _ => head_of f
  | _ => t
  end.

(** Structural step of a [spec] proof. *)
Ltac spec_step :=
  lazymatch goal with
  | |- spec _ (mret _) _ => apply spec_ret
  | |- spec _ (orelse _ _) _ => apply spec_orelse
  | |- spec _ (_ ≫= _) _ => apply spec_bind_any; [ | intros ? ]
  | |- spec _ (lift _) _ => apply spec_lift
  | |- spec _ get_d _ => apply spec_get_d
  | |- spec _ (put_d _) _ => apply spec_put_d
  | |- spec _ (remote _ _ _) _ => apply spec_remote
  | |- spec _ (PrefixedUniqueId _) _ => apply spec_fresh
  | |- spec _ UniqueId _ => apply spec_fresh
  | |- spec _ (match ?x with _ => _ end) _ => first [ progress cbn [fst snd] | destruct x ]
  | |- spec _ (let _ := _ in _) _ => cbv zeta
  | |- spec _ ?m _ =>
    let h := head_of m in
    first [ unfold h | fail 1 "spec_step: stuck" ]
  end.

(** The side conditions a [spec] proof leaves: an event of the allowed
    kind, a trivial result, or a returned error that is not one of the two
    validation errors. *)
Ltac spec_side :=
  lazymatch goal with
  | |- spec _ _ _ => idtac
  | |- True => exact I
  | |- not_validation None => apply not_validation_nil
  | |- not_validation (Some _) =>
    let H := fresh in intros ? [= <-] [H|H]; cbn in H; discriminate H
  | |- Some _ = Some _ → _ => let H := fresh in intros H; injection H as <-; spec_side
  | |- None = Some _ → _ => let H := fresh in intros H; discriminate H
  | |- ∀ _, _ => intro; spec_side
  | |- _ => try exact I
  end.

Ltac spec_auto := repeat spec_step; spec_side.

Lemma refresh_spec (arn : string) :
  spec quiet (acmpcaCertificateAuthorityRefreshFunc conn arn) (fun _ => True).
Proof. unfold acmpcaCertificateAuthorityRefreshFunc. spec_auto. Qed.

Lemma poll_spec {R} (n : nat) (conf : StateChangeConf W R) :
  spec quiet (Refresh conf) (fun _ => True) →
  spec quiet (poll_loop n conf) (fun _ => True).
Proof.
  intros Hfetch. induction n as [|n IH]; simpl.
  - apply spec_bind_any; [exact Hfetch|]. intros [[[res|] status] [e|]]; spec_auto.
  - apply spec_bind_any; [exact Hfetch|]. intros [[[res|] status] [e|]]; spec_auto.
    exact IH.
Qed.

Lemma selfsign_spec :
  spec quiet (acmpcaCertificateAuthoritySelfSignCert conn) not_validation.
Proof. unfold acmpcaCertificateAuthoritySelfSignCert. spec_auto. Qed.

Lemma read_spec :
  spec quiet (resourceAwsAcmpcaCertificateAuthorityRead conn) not_validation.
Proof. unfold resourceAwsAcmpcaCertificateAuthorityRead. spec_auto. Qed.

(** ** CertificateAuthorityManager: Update *)

Lemma new_events_app {A} (s : st W) (o : outcome W A) (l : list Event) :
  events (final o) = events s ++ l → new_events s o = l.
Proof. intros H. unfold new_events. rewrite H. by rewrite drop_app_length. Qed.












(** ** CertificateAuthorityManager: Create *)

Lemma spec_events_weaken {A} (φ φ' : Event → Prop) (m : M W A) (Q : A → Prop) :
  spec φ m Q → (∀ ev, φ ev → φ' ev) → spec φ' m Q.
Proof.
  intros Hm Hφ s. destruct (Hm s) as [(l & Hl & Hall) Hret]. split; [|done].
  exists l. split; [done|]. eapply Forall_impl; eauto.
Qed.

Lemma retry_spec {A} (φ : Event → Prop) (exhausted : error → error) (n : nat)
    (f : M W (A * option RetryError)) :
  spec φ f (fun _ => True) → spec φ (retry_loop exhausted n f) (fun _ => True).
Proof.
  intros Hf. induction n as [|n IH]; simpl.
  - apply spec_bind_any; [exact Hf|]. intros [a [[e|e]|]]; spec_auto.
  - apply spec_bind_any; [exact Hf|]. intros [a [[e|e]|]]; spec_auto. exact IH.
Qed.

Lemma wait_spec (pending target : list string) (arn : string) (timeout : Z) :
  spec quiet
    (WaitForState budget
       {| Pending := pending; Target := target;
          Refresh := acmpcaCertificateAuthorityRefreshFunc conn arn; Timeout := timeout |})
    (fun _ => True).
Proof. unfold WaitForState. apply poll_spec. apply refresh_spec. Qed.

(** A [spec] step that knows the waiting primitives and the functions
    already covered. *)
Ltac spec_flow :=
  lazymatch goal with
  | |- spec _ (Retry _ _ _) _ => unfold Retry; apply retry_spec
  | |- spec _ (WaitForState _ _) _ =>
    apply spec_events_weaken with (φ := quiet); [apply wait_spec | try done]
  | |- spec _ (acmpcaCertificateAuthoritySelfSignCert _) _ =>
    apply spec_events_weaken with (φ := quiet);
    [ eapply spec_weaken; [apply selfsign_spec | try done] | try done ]
  | |- spec _ (resourceAwsAcmpcaCertificateAuthorityRead _) _ =>
    apply spec_events_weaken with (φ := quiet);
    [ eapply spec_weaken; [apply read_spec | try done] | try done ]
  | |- _ => spec_step
  end.

Lemma GetOk_validity_length (d : ResourceData) :
  (GetOk CA d "validity_length").2 = validity_length_given d.
Proof.
  unfold GetOk, Get, read_field, validity_length_given.
  rewrite (eq_refl : CA !! "validity_length" = Some (entry TypeInt)).
  destruct (rd_attrs d !! "validity_length") as [[]|]; try reflexivity.
  cbn. destruct (Z.eqb_spec z 0) as [->|Hz]; [reflexivity|].
  apply bool_decide_eq_true. congruence.
Qed.

Lemma GetOk_validity_unit (d : ResourceData) :
  (GetOk CA d "validity_unit").2 = validity_unit_given d.
Proof.
  unfold GetOk, Get, read_field, validity_unit_given.
  rewrite (eq_refl : CA !! "validity_unit" = Some (entry TypeString)).
  destruct (rd_attrs d !! "validity_unit") as [[]|]; try reflexivity.
  cbn. destruct (String.eqb_spec s "") as [->|Hs]; [reflexivity|].
  apply bool_decide_eq_true. congruence.
Qed.

Lemma type_string (d : ResourceData) : ∃ t, Get CA d "type" = VString t.
Proof.
  by apply (Get_string CA d _
              (entry_default TypeString (VString CertificateAuthorityTypeSubordinate))).
Qed.

Lemma is_root_eqb (d : ResourceData) (t : string) :
  Get CA d "type" = VString t → is_root d = String.eqb t CertificateAuthorityTypeRoot.
Proof.
  intros Ht. unfold is_root. rewrite Ht.
  destruct (String.eqb_spec t CertificateAuthorityTypeRoot) as [->|Hne].
  - by apply bool_decide_eq_true.
  - apply bool_decide_eq_false. congruence.
Qed.

Lemma bind_run {A B} (m : M W A) (f : A → M W B) (s : st W) :
  (m ≫= f) s = match m s with Done a s' => f a s' | Panicked s' => Panicked s' end.
Proof. reflexivity. Qed.

Lemma orelse_run (m : M W (option (option error))) (k : M W (option error)) (s : st W) :
  orelse m k s = match m s with
                 | Done (Some ret) s' => Done ret s'
                 | Done None s' => k s'
                 | Panicked s' => Panicked s'
                 end.
Proof. unfold orelse. rewrite bind_run. by destruct (m s) as [[?|] ?|?]. Qed.

Lemma get_string_run (sch : gmap string Schema) (k t : string) (s : st W) :
  Get sch (rd s) k = VString t →
  (v ← d_Get sch k; lift (as_string v)) s = Done t s.
Proof. intros Ht. mred. by rewrite Ht. Qed.

(** C2 (amended). Create stops at its precondition check, returning one of
    the two validity errors with the resource data, the service and the
    trace untouched (no remote call was made), exactly when [type] is ROOT
    and [validity_length] is missing or zero or [validity_unit] is missing
    or empty. No other run of Create returns one of these errors: never
    for a type other than ROOT, whatever the validity fields, and never
    for ROOT with both fields given. *)
Theorem create_validity_precondition (s : st W) :
  let missing := is_root (rd s)
                 && negb (validity_length_given (rd s) && validity_unit_given (rd s)) in
  (missing = true →
   ∃ e, validation_error e
        ∧ resourceAwsAcmpcaCertificateAuthorityCreate conn budget isResourceTimeoutError s
          = Done (Some e) s)
  ∧ (∀ e s',
       resourceAwsAcmpcaCertificateAuthorityCreate conn budget isResourceTimeoutError s
       = Done (Some e) s' →
       validation_error e → missing = true ∧ s' = s).
Proof.
  intros missing. subst missing.
  destruct (type_string (rd s)) as [t Ht].
  rewrite (is_root_eqb _ _ Ht).
  unfold resourceAwsAcmpcaCertificateAuthorityCreate.
  rewrite bind_run, (get_string_run _ _ _ _ Ht). cbv beta iota zeta.
  match goal with |- context [orelse ?m ?k] => set (tail := k) end.
  assert (Htail : spec (fun _ => True) tail not_validation).
  { subst tail. repeat spec_flow; spec_side. }
  rewrite orelse_run.
  destruct (String.eqb t CertificateAuthorityTypeRoot); mred.
  2: { split; [discriminate|]. intros e s' Hrun Hv.
       destruct (Htail s) as [_ Hret]. by destruct (Hret _ _ Hrun e eq_refl). }
  rewrite GetOk_validity_length.
  destruct (validity_length_given (rd s)); mred.
  2: { split.
       - intros _. eexists. split; [by left | reflexivity].
       - by intros e s' [= <- <-] _. }
  rewrite GetOk_validity_unit.
  destruct (validity_unit_given (rd s)); mred.
  2: { split.
       - intros _. eexists. split; [by right | reflexivity].
       - by intros e s' [= <- <-] _. }
  split; [discriminate|]. intros e s' Hrun Hv.
  destruct (Htail s) as [_ Hret]. by destruct (Hret _ _ Hrun e eq_refl).
Qed.

Lemma retry_loop_shape {A} (c : Call) (exhausted : error → error)
    (f : M W (A * option RetryError)) :
  (∀ s, ∃ out err w, f s = Done (out, classify err) (after_call s w c err)) →
  ∀ n s, ∃ errs last out res w,
    retry_loop exhausted n f s
    = Done (out, res)
        {| rd := rd s; world := w;
           events := events s ++ (map (fun e => Remote c (Some e)) errs ++ [Remote c last]);
           uniq := uniq s |}
    ∧ Forall (fun e => transient e = true) errs
    ∧ (length errs ≤ n)%nat
    ∧ match last with
      | None => res = None
      | Some e =>
        if transient e then length errs = n ∧ res = Some (exhausted e) else res = Some e
      end.
Proof.
  intros Hf n. induction n as [|n IH]; intros s.
  - destruct (Hf s) as (out & err & w & Hrun). simpl. rewrite bind_run, Hrun.
    exists [], err, out. cbn [fst snd]. unfold after_call.
    destruct err as [e|]; cbn [classify].
    + destruct (transient e) eqn:Ht.
      * exists (Some (exhausted e)), w. by split_and!.
      * exists (Some e), w. by split_and!.
    + exists None, w. by split_and!.
  - destruct (Hf s) as (out & err & w & Hrun). simpl. rewrite bind_run, Hrun.
    cbn [fst snd]. destruct err as [e|]; cbn [classify].
    + destruct (transient e) eqn:Ht.
      * destruct (IH (after_call s w c (Some e)))
          as (errs & last & out' & res & w' & Hrun' & Hall & Hlen & Hlast).
        exists (e :: errs), last, out', res, w'. rewrite Hrun'. split_and!.
        -- unfold after_call. cbn [rd events uniq map]. by rewrite <- app_assoc.
        -- by constructor.
        -- simpl. lia.
        -- destruct last as [e'|]; [|done]. destruct (transient e'); [|done].
           destruct Hlast as [Hn ->]. split; [simpl; lia | done].
      * exists [], (Some e), out, (Some e), w. unfold after_call.
        split_and!; [done | done | simpl; lia | by rewrite Ht].
    + exists [], None, out, None, w. unfold after_call.
      split_and!; [done | done | simpl; lia | done].
Qed.

Lemma ret_run {A} (a : A) (s : st W) : (mret a : M W A) s = Done a s.
Proof. reflexivity. Qed.

Lemma create_request_inv (d : ResourceData) (token : string)
    (input : CreateCertificateAuthorityInput.t) :
  create_request d token = Ret input →
  ∃ tm tg cl cfg t rl rev,
    Get CA d "tags" = VMap tm ∧ New tm = Ret tg
    ∧ Get CA d "certificate_authority_configuration" = VList cl
    ∧ expandAcmpcaCertificateAuthorityConfiguration cl = Ret cfg
    ∧ Get CA d "type" = VString t
    ∧ Get CA d "revocation_configuration" = VList rl
    ∧ expandAcmpcaRevocationConfiguration rl = Ret rev
    ∧ input = {|
        CreateCertificateAuthorityInput.CertificateAuthorityConfiguration := cfg;
        CreateCertificateAuthorityInput.CertificateAuthorityType := Some t;
        CreateCertificateAuthorityInput.IdempotencyToken := Some token;
        CreateCertificateAuthorityInput.RevocationConfiguration := rev;
        CreateCertificateAuthorityInput.Tags :=
          if bool_decide (0 < size (IgnoreAws tg))%nat then IgnoreAws tg else ∅
      |}.
Proof.
  unfold create_request. intros Hin.
  destruct (Get_map CA d "tags" (entry TypeMap) eq_refl eq_refl) as [tm Htags].
  destruct (Get_list CA d "certificate_authority_configuration" (entry TypeList)
              eq_refl eq_refl) as [cl Hcl].
  destruct (type_string d) as [t Ht].
  destruct (Get_list CA d "revocation_configuration" (entry TypeList)
              eq_refl eq_refl) as [rl Hrl].
  rewrite Htags, Hcl, Ht, Hrl in Hin.
  cbn [as_map as_slice as_string mbind run_bind] in Hin.
  destruct (New tm) as [tg|] eqn:Hnew; [|discriminate].
  cbn [mbind run_bind] in Hin.
  destruct (expandAcmpcaCertificateAuthorityConfiguration cl) as [cfg|] eqn:Hcfg;
    [|discriminate].
  cbn [mbind run_bind] in Hin.
  destruct (expandAcmpcaRevocationConfiguration rl) as [rev|] eqn:Hrv; [|discriminate].
  cbn [mbind run_bind] in Hin. injection Hin as <-.
  exists tm, tg, cl, cfg, t, rl, rev. repeat split; assumption.
Qed.

(** One step of a run kept as [H : o = (m ≫= f) s]: evaluates [m s] with
    [tac] and hands the result to [f]. *)
Ltac step_in H tac :=
  rewrite bind_run in H;
  lazymatch type of H with
  | _ = match ?x with _ => _ end =>
    let E := fresh "E" in
    eassert (E : x = Done _ _) by (mred; tac; reflexivity);
    rewrite E in H; clear E; cbv beta iota zeta in H
  end.

Lemma create_attempts (s : st W) (input : CreateCertificateAuthorityInput.t) :
  let token := unique_id "terraform-" (uniq s) in
  let create := resourceAwsAcmpcaCertificateAuthorityCreate conn budget
                  isResourceTimeoutError s in
  validity_missing (rd s) = false →
  create_request (rd s) token = Ret input →
  ∃ errs last extra rest,
    new_events s create
    = Fresh token :: map (fun e => attempt input (Some e)) errs
      ++ attempt input last :: extra ++ rest
    ∧ Forall (fun e => transient e = true) errs
    ∧ (length errs ≤ retries_within budget 60)%nat
    ∧ (∀ e, last = Some e → transient e = true →
            length errs = retries_within budget 60)
    ∧ (extra = [] ∨ ∃ err, extra = [attempt input err])
    ∧ Forall quiet rest
    ∧ (∀ e, last = Some e → transient e = false → isResourceTimeoutError e = false →
            extra = [] ∧ rest = []
            ∧ ∃ s', create = Done (Some (Errorf
                        ("error creating ACMPCA Certificate Authority: " +:+ Error e))) s').
Proof.
  intros token create Hvalid Hin. subst create token.
  remember (resourceAwsAcmpcaCertificateAuthorityCreate conn budget
              isResourceTimeoutError s) as o eqn:Ho.
  destruct (create_request_inv _ _ _ Hin)
    as (tm & tg & cl & cfg & t & rl & rev & Htags & Hnew & Hcl & Hcfg & Ht & Hrl & Hrv & Hinput).
  unfold validity_missing in Hvalid. rewrite (is_root_eqb _ _ Ht) in Hvalid.
  unfold resourceAwsAcmpcaCertificateAuthorityCreate in Ho.
  rewrite bind_run, (get_string_run _ _ _ _ Ht) in Ho. cbv beta iota zeta in Ho.
  rewrite orelse_run in Ho.
  match type of Ho with
  | _ = match ?v s with _ => _ end =>
    assert (Hv : v s = Done None s)
  end.
  { destruct (String.eqb t CertificateAuthorityTypeRoot); mred; [|done].
    rewrite GetOk_validity_length.
    destruct (validity_length_given (rd s)); [|discriminate Hvalid]. mred.
    rewrite GetOk_validity_unit.
    destruct (validity_unit_given (rd s)); [|discriminate Hvalid]. done. }
  rewrite Hv in Ho. clear Hv.
  step_in Ho ltac:(rewrite ?Htags; mred; rewrite ?Hnew).
  step_in Ho ltac:(rewrite ?Hcl; mred; rewrite ?Hcfg).
  step_in Ho ltac:(rewrite ?Ht).
  step_in Ho idtac.
  step_in Ho ltac:(rewrite ?Hrl; mred; rewrite ?Hrv).
  rewrite <- Hinput in Ho. clear Hinput Hin.
  rewrite bind_run in Ho. unfold Retry in Ho.
  match type of Ho with
  | _ = match retry_loop ?ex ?n ?f ?s1 with _ => _ end =>
    assert (Hf : ∀ s0, ∃ out err w,
               f s0 = Done (out, classify err)
                        (after_call s0 w (CreateCertificateAuthorityCall input) err));
    [ | destruct (retry_loop_shape _ ex f Hf n s1)
          as (errs & last & out & res & w & Hrun & Hall & Hlen & Hlast); clear Hf ]
  end.
  { intros s0. mred.
    destruct (CreateCertificateAuthority conn input (world s0)) as [[out err] w].
    exists out, err, w. unfold after_call, classify, transient. cbn [fst snd].
    destruct err as [e|]; [destruct (isAWSErr e _ _)|]; reflexivity. }
  rewrite Hrun in Ho. clear Hrun. cbv beta iota zeta in Ho.
  cbn [fst snd rd events uniq] in Ho. rewrite bind_run in Ho.
  assert (Hbudget : ∀ e, last = Some e → transient e = true →
                         length errs = retries_within budget 60).
  { intros e -> He. rewrite He in Hlast. tauto. }
  (* the attempt after a timeout of the retry primitive *)
  destruct (match res with Some err => isResourceTimeoutError err | None => false end)
    eqn:Htimeout.
  - match type of Ho with
    | _ = match ?x with _ => _ end =>
      let E := fresh "E" in
      eassert (E : x = Done _ _) by (mred; reflexivity);
      rewrite E in Ho; clear E; cbv beta iota zeta in Ho
    end.
    destruct (CreateCertificateAuthority conn input w) as [[out2 err2] w2].
    unfold check at 1 in Ho. cbn [fst snd] in Ho.
    destruct err2 as [e2|].
    + rewrite ret_run in Ho. subst o.
      exists errs, last, [attempt input (Some e2)], []. split_and!; try first [assumption | reflexivity].
      * apply new_events_app. cbn [final events]. rewrite <- !app_assoc. reflexivity.
      * right. by eexists.
      * constructor.
      * intros e -> Hnt Hnto. rewrite Hnt in Hlast. subst res. congruence.
    + match type of Ho with
      | _ = ?k ?s3 =>
        assert (Hk : spec quiet k (fun _ => True)) by (repeat spec_flow; spec_side);
        destruct (Hk s3) as [(l & Hl & Hq) _]; clear Hk
      end.
      rewrite <- Ho in Hl. cbn [events] in Hl.
      exists errs, last, [attempt input None], l. split_and!; try first [assumption | reflexivity].
      * apply new_events_app. rewrite Hl. rewrite <- !app_assoc. reflexivity.
      * right. by eexists.
      * intros e -> Hnt Hnto. rewrite Hnt in Hlast. subst res. congruence.
  - rewrite ret_run in Ho. unfold check at 1 in Ho. cbn [fst snd] in Ho.
    destruct res as [e'|].
    + rewrite ret_run in Ho. subst o.
      exists errs, last, [], []. split_and!; try first [assumption | reflexivity].
      * apply new_events_app. cbn [final events]. rewrite <- !app_assoc. reflexivity.
      * by left.
      * constructor.
      * intros e -> Hnt Hnto. rewrite Hnt in Hlast. injection Hlast as ->.
        split_and!; [done | done | by eexists].
    + match type of Ho with
      | _ = ?k ?s3 =>
        assert (Hk : spec quiet k (fun _ => True)) by (repeat spec_flow; spec_side);
        destruct (Hk s3) as [(l & Hl & Hq) _]; clear Hk
      end.
      rewrite <- Ho in Hl. cbn [events] in Hl.
      exists errs, last, [], l. split_and!; try first [assumption | reflexivity].
      * apply new_events_app. rewrite Hl. rewrite <- !app_assoc. reflexivity.
      * by left.
      * intros e -> Hnt Hnto. rewrite Hnt in Hlast. discriminate Hlast.
Qed.

Lemma create_request_token (d : ResourceData) (token : string)
    (input : CreateCertificateAuthorityInput.t) :
  create_request d token = Ret input →
  CreateCertificateAuthorityInput.IdempotencyToken input = Some token.
Proof.
  intros Hin. pose proof (create_request_inv d token input Hin)
    as (tm & tg & cl & cfg & t & rl & rev & _ & _ & _ & _ & _ & _ & _ & Hinput).
  by rewrite Hinput.
Qed.

(** C4. In a run of Create that passes the precondition check and builds
    its request, one identifier is drawn before the first create call and
    none between the create calls; every create call of the run (the
    first one, each retry, and the attempt after a timeout of the retry
    primitive) carries the one request built before the first call, whose
    idempotency token is that identifier; no create call follows them. *)
Theorem create_token_reused (s : st W) (input : CreateCertificateAuthorityInput.t) :
  let token := unique_id "terraform-" (uniq s) in
  validity_missing (rd s) = false →
  create_request (rd s) token = Ret input →
  CreateCertificateAuthorityInput.IdempotencyToken input = Some token
  ∧ ∃ attempts rest,
      new_events s (resourceAwsAcmpcaCertificateAuthorityCreate conn budget
                      isResourceTimeoutError s)
      = Fresh token :: attempts ++ rest
      ∧ (1 ≤ length attempts ≤ retries_within budget 60 + 2)%nat
      ∧ Forall (fun ev => ∃ err, ev = attempt input err) attempts
      ∧ Forall quiet rest.
Proof.
  intros token Hvalid Hin. split; [exact (create_request_token _ _ _ Hin)|].
  destruct (create_attempts s input Hvalid Hin)
    as (errs & last & extra & rest & Hev & _ & Hlen & _ & Hextra & Hquiet & _).
  exists (map (fun e => attempt input (Some e)) errs ++ attempt input last :: extra), rest.
  split_and!.
  - rewrite Hev. fold token. by rewrite <- app_assoc.
  - rewrite length_app, length_map. simpl. lia.
  - rewrite length_app, length_map. simpl.
    destruct Hextra as [->|[err ->]]; simpl; lia.
  - apply Forall_app. split.
    + apply Forall_map, Forall_forall. intros e _. by eexists.
    + constructor; [by eexists|].
      destruct Hextra as [->|[err ->]]; repeat constructor. by eexists.
  - done.
Qed.

(** C5. In a run of Create that passes the precondition check and builds
    its request, the create calls made under [resource.Retry] with its
    budget of 60 seconds all carry the same request; each failure that is
    followed by a retry matches the transient signature, a failure that
    matches it is retried as long as the budget leaves room, and a failure
    that does not match it (and is not the retry primitive's own timeout)
    ends the run at once: no further call is made and Create returns the
    error. *)
Theorem create_retry_policy (s : st W) (input : CreateCertificateAuthorityInput.t) :
  let token := unique_id "terraform-" (uniq s) in
  let create := resourceAwsAcmpcaCertificateAuthorityCreate conn budget
                  isResourceTimeoutError s in
  validity_missing (rd s) = false →
  create_request (rd s) token = Ret input →
  ∃ errs last rest,
    new_events s create
    = Fresh token :: map (fun e => attempt input (Some e)) errs
      ++ attempt input last :: rest
    ∧ Forall (fun e => transient e = true) errs
    ∧ (length errs ≤ retries_within budget 60)%nat
    ∧ (∀ e, last = Some e → transient e = true →
            length errs = retries_within budget 60)
    ∧ (∀ e, last = Some e → transient e = false → isResourceTimeoutError e = false →
            rest = []
            ∧ ∃ s', create = Done (Some (Errorf
                        ("error creating ACMPCA Certificate Authority: " +:+ Error e))) s').
Proof.
  intros token create Hvalid Hin.
  destruct (create_attempts s input Hvalid Hin)
    as (errs & last & extra & rest & Hev & Hall & Hlen & Hbudget & _ & _ & Hfatal).
  exists errs, last, (extra ++ rest). split_and!; try done.
  intros e He Hnt Hnto. destruct (Hfatal e He Hnt Hnto) as (-> & -> & Hrun). done.
Qed.

(** ** RootSelfSigner *)

(** The self-sign sequence never gets to its second step. [d.Get] hands
    out [certificate_authority_configuration], a list in the schema, as a
    slice, which Create asserts at line 303; the assertion to a map at
    line 573 panics. Whatever the service does, the run ends with the
    error of the CSR fetch or with a panic right after it, and the only
    event it adds is that fetch. *)
Lemma selfsign_stops_after_csr (s : st W) :
  let answer := GetCertificateAuthorityCsr conn (rd_id (rd s)) (world s) in
  let s' := after_call s answer.2 (GetCertificateAuthorityCsrCall (rd_id (rd s)))
              answer.1.2 in
  match answer.1.2 with
  | Some err =>
    acmpcaCertificateAuthoritySelfSignCert conn s
    = Done (Some (Errorf
         ("error reading ACMPCA Certificate Authority Certificate Signing Request: "
          +:+ Error err))) s'
  | None => acmpcaCertificateAuthoritySelfSignCert conn s = Panicked s'
  end.
Proof.
  intros answer s'. subst s' answer. unfold after_call.
  destruct (Get_list CA (rd s) "certificate_authority_configuration" (entry TypeList)
              eq_refl eq_refl) as [l Hl].
  unfold acmpcaCertificateAuthoritySelfSignCert. mred.
  destruct (GetCertificateAuthorityCsr conn (rd_id (rd s)) (world s)) as [[out err] w].
  mred. destruct err as [err|]; mred; [reflexivity|].
  destruct out as [out|]; mred; [|reflexivity].
  rewrite Hl. by mred.
Qed.

(** ** ConfigTranscoder: what expand produces *)

Lemma opt_string_field_set (m : gmap string value) (k : string) (p : option string) :
  opt_string_field m k = Ret p → set_string p = true.
Proof.
  unfold opt_string_field. destruct (m !! k) as [[]|]; try discriminate.
  - cbn. destruct (String.eqb s "") eqn:Hs; intros [= <-]; [done|]. cbn. by rewrite Hs.
  - by intros [= <-].
Qed.

Lemma pos_int_field_positive (m : gmap string value) (k : string) (p : option Z) :
  pos_int_field m k = Ret p → match p with Some z => 0 <? z | None => true end = true.
Proof.
  unfold pos_int_field. destruct (m !! k) as [[]|]; try discriminate.
  - cbn. destruct (0 <? z) eqn:Hz; by intros [= <-].
  - by intros [= <-].
Qed.

(** Inversion of one bind of pure code that returned. *)
Ltac bind_inv H :=
  lazymatch type of H with
  | (?r ≫= _) = Ret _ =>
    let E := fresh "E" in
    destruct r eqn:E; cbn [mbind run_bind] in H; [|discriminate H]
  end.

Lemma expand_subject_normal (l : list value) (s : ASN1Subject) :
  expandAcmpcaASN1Subject l = Ret (Some s) → normal_subject s = true.
Proof.
  unfold expandAcmpcaASN1Subject. destruct l as [|l0 l]; [discriminate|].
  intros H. do 14 bind_inv H. injection H as <-.
  unfold normal_subject. cbn.
  repeat match goal with
  | E : opt_string_field _ _ = Ret ?p |- _ =>
    rewrite (opt_string_field_set _ _ _ E); clear E
  end.
  reflexivity.
Qed.

Lemma expand_configuration_normal (l : list value) (c : CertificateAuthorityConfiguration) :
  expandAcmpcaCertificateAuthorityConfiguration l = Ret (Some c) →
  normal_configuration c = true.
Proof.
  unfold expandAcmpcaCertificateAuthorityConfiguration. destruct l as [|l0 l]; [discriminate|].
  intros H. do 5 bind_inv H. injection H as <-.
  unfold normal_configuration. cbn.
  match goal with E : expandAcmpcaASN1Subject _ = Ret ?o |- _ =>
    destruct o; [exact (expand_subject_normal _ _ E) | reflexivity] end.
Qed.

Lemma expand_crl_normal (l : list value) (c : CrlConfiguration) :
  expandAcmpcaCrlConfiguration l = Ret (Some c) → normal_crl c = true.
Proof.
  unfold expandAcmpcaCrlConfiguration. destruct l as [|l0 l]; [discriminate|].
  intros H. do 5 bind_inv H. injection H as <-.
  unfold normal_crl. cbn.
  repeat match goal with
  | E : opt_string_field _ _ = Ret ?p |- _ =>
    rewrite (opt_string_field_set _ _ _ E); clear E
  | E : pos_int_field _ _ = Ret ?p |- _ =>
    rewrite (pos_int_field_positive _ _ _ E); clear E
  end.
  reflexivity.
Qed.

Lemma expand_revocation_normal (l : list value) (r : RevocationConfiguration) :
  expandAcmpcaRevocationConfiguration l = Ret (Some r) → normal_revocation r = true.
Proof.
  unfold expandAcmpcaRevocationConfiguration. destruct l as [|l0 l]; [discriminate|].
  intros H. do 3 bind_inv H. injection H as <-.
  unfold normal_revocation. cbn.
  match goal with E : expandAcmpcaCrlConfiguration _ = Ret ?o |- _ =>
    destruct o; [exact (expand_crl_normal _ _ E) | reflexivity] end.
Qed.

(** X1. Whatever list the expand functions are given, a record they
    return is in normal form (no field points to the empty string, the
    algorithms and the CRL switch are set, an expiration is positive), and
    flattening it and expanding the result gives it back: the round trip
    is the identity on everything expand produces, for subjects,
    configurations and revocation configurations. *)
Theorem expand_output_round_trips
    (ls lc lr : list value) (s : ASN1Subject) (c : CertificateAuthorityConfiguration)
    (r : RevocationConfiguration) :
  expandAcmpcaASN1Subject ls = Ret (Some s) →
  expandAcmpcaCertificateAuthorityConfiguration lc = Ret (Some c) →
  expandAcmpcaRevocationConfiguration lr = Ret (Some r) →
  (normal_subject s = true ∧ normal_configuration c = true ∧ normal_revocation r = true)
  ∧ expandAcmpcaASN1Subject (flattenAcmpcaASN1Subject (Some s)) = Ret (Some s)
  ∧ expandAcmpcaCertificateAuthorityConfiguration
      (flattenAcmpcaCertificateAuthorityConfiguration (Some c)) = Ret (Some c)
  ∧ expandAcmpcaRevocationConfiguration
      (flattenAcmpcaRevocationConfiguration (Some r)) = Ret (Some r).
Proof.
  intros Hs Hc Hr.
  pose proof (expand_subject_normal _ _ Hs) as Ns.
  pose proof (expand_configuration_normal _ _ Hc) as Nc.
  pose proof (expand_revocation_normal _ _ Hr) as Nr.
  split_and!; try assumption.
  - by apply (expand_flatten_subject_normal (Some s)).
  - by apply expand_flatten_configuration_normal.
  - by apply expand_flatten_revocation_normal.
Qed.

Lemma expand_flatten_configuration_total (c : CertificateAuthorityConfiguration) :
  ∃ c', expandAcmpcaCertificateAuthorityConfiguration
          (flattenAcmpcaCertificateAuthorityConfiguration (Some c)) = Ret (Some c').
Proof.
  unfold expandAcmpcaCertificateAuthorityConfiguration,
    flattenAcmpcaCertificateAuthorityConfiguration.
  cbn [as_map mbind run_bind].
  replace (index _ "key_algorithm") with (VString (StringValue (KeyAlgorithm c)))
    by (vm_compute; reflexivity).
  replace (index _ "signing_algorithm") with (VString (StringValue (SigningAlgorithm c)))
    by (vm_compute; reflexivity).
  replace (index _ "subject") with (VList (flattenAcmpcaASN1Subject (Subject c)))
    by (vm_compute; reflexivity).
  cbn [as_string as_slice mbind run_bind].
  destruct (Subject c) as [s|].
  - rewrite expand_flatten_subject. cbn [mbind run_bind]. by eexists.
  - cbn. by eexists.
Qed.

(** X2. For every subject, configuration and revocation configuration,
    set or nil, normal or not, expanding the flattened record returns
    (it never panics), keeps nil as nil and a record as a record, and
    gives a record that a further round trip leaves as it is. *)
Theorem expand_flatten_settles
    (s : option ASN1Subject) (c : option CertificateAuthorityConfiguration)
    (r : option RevocationConfiguration) :
  (∃ s', expandAcmpcaASN1Subject (flattenAcmpcaASN1Subject s) = Ret s'
         ∧ (is_Some s' ↔ is_Some s)
         ∧ expandAcmpcaASN1Subject (flattenAcmpcaASN1Subject s') = Ret s')
  ∧ (∃ c', expandAcmpcaCertificateAuthorityConfiguration
             (flattenAcmpcaCertificateAuthorityConfiguration c) = Ret c'
           ∧ (is_Some c' ↔ is_Some c)
           ∧ expandAcmpcaCertificateAuthorityConfiguration
               (flattenAcmpcaCertificateAuthorityConfiguration c') = Ret c')
  ∧ (∃ r', expandAcmpcaRevocationConfiguration
             (flattenAcmpcaRevocationConfiguration r) = Ret r'
           ∧ (is_Some r' ↔ is_Some r)
           ∧ expandAcmpcaRevocationConfiguration
               (flattenAcmpcaRevocationConfiguration r') = Ret r').
Proof.
  split_and!.
  - destruct s as [s|]; [|exists None; split_and!; [reflexivity | done | reflexivity]].
    pose proof (expand_flatten_subject s) as H. eexists. split_and!; [exact H | done |].
    apply (expand_flatten_subject_normal (Some _)). exact (expand_subject_normal _ _ H).
  - destruct c as [c|]; [|exists None; split_and!; [reflexivity | done | reflexivity]].
    destruct (expand_flatten_configuration_total c) as [c' H].
    exists (Some c'). split_and!; [exact H | done |].
    apply expand_flatten_configuration_normal. exact (expand_configuration_normal _ _ H).
  - destruct r as [r|]; [|exists None; split_and!; [reflexivity | done | reflexivity]].
    destruct (expand_flatten_revocation_present r) as [r' H].
    exists (Some r'). split_and!; [exact H | done |].
    apply expand_flatten_revocation_normal. exact (expand_revocation_normal _ _ H).
Qed.



(** ** Delete and the importer *)

Lemma GetOk_int (d : ResourceData) (k : string) (e : Schema) (z : Z) :
  CA !! k = Some e → Type_ e = TypeInt → Get CA d k = VInt z →
  GetOk CA d k = (VInt z, negb (z =? 0)).
Proof.
  intros He Ht Hz. unfold GetOk. rewrite He, Hz, Ht. cbn. f_equal.
  destruct (Z.eqb_spec z 0) as [->|Hne]; cbn.
  - by apply bool_decide_eq_false_2; intros H; apply H.
  - apply bool_decide_eq_true_2. congruence.
Qed.

Lemma GetOk_string (sch : gmap string Schema) (d : ResourceData) (k : string) (e : Schema)
    (c : string) :
  sch !! k = Some e → Type_ e = TypeString → Get sch d k = VString c →
  GetOk sch d k = (VString c, negb (String.eqb c "")).
Proof.
  intros He Ht Hc. unfold GetOk. rewrite He, Hc, Ht. cbn. f_equal.
  destruct (String.eqb_spec c "") as [->|Hne]; cbn.
  - by apply bool_decide_eq_false_2; intros H; apply H.
  - apply bool_decide_eq_true_2. congruence.
Qed.

(** X5. Delete makes exactly one remote call, the delete call for
    [d.Id()], which carries the retention days when they read as a value
    other than zero and no retention otherwise. It leaves the resource
    data alone, returns nil when the call succeeds or reports not-found,
    and the error behind its prefix otherwise. *)
Theorem delete_single_call (s : st W) :
  let request := delete_request (rd s) in
  let answer := DeleteCertificateAuthority conn request (world s) in
  resourceAwsAcmpcaCertificateAuthorityDelete conn s
  = Done (delete_result answer.1.2)
      (after_call s answer.2 (DeleteCertificateAuthorityCall request) answer.1.2).
Proof.
  intros request answer. subst answer request. unfold delete_request, after_call.
  destruct (Get_int CA (rd s) "permanent_deletion_time_in_days"
              (entry_default TypeInt (VInt 30)) eq_refl eq_refl) as [z Hz].
  unfold resourceAwsAcmpcaCertificateAuthorityDelete. mred.
  rewrite (GetOk_int (rd s) "permanent_deletion_time_in_days"
             (entry_default TypeInt (VInt 30)) z eq_refl eq_refl Hz), Hz. mred.
  destruct (z =? 0); mred.
  all: match goal with
       | |- context [DeleteCertificateAuthority conn ?i ?w] =>
         destruct (DeleteCertificateAuthority conn i w) as [[out [e|]] w']
       end; mred; unfold delete_result; try reflexivity.
  all: by destruct (isAWSErr e ErrCodeResourceNotFoundException "").
Qed.


(** ** CertificateAttachment: Create and the absent authority *)

Lemma attachment_body_string (d : ResourceData) :
  ∃ b, Get ATT d "certificate_body" = VString b.
Proof. by apply (Get_string ATT d _ (entry TypeString)). Qed.

Lemma attachment_chain_string (d : ResourceData) :
  ∃ c, Get ATT d "certificate_chain" = VString c.
Proof. by apply (Get_string ATT d _ (entry TypeString)). Qed.

Lemma attachment_create_run (s : st W) :
  let request := import_request (rd s) in
  let answer := ImportCertificateAuthorityCertificate conn request (world s) in
  let imported := after_call s answer.2 (ImportCertificateAuthorityCertificateCall request)
                    answer.1.2 in
  let id := attachment_id (rd s) (uniq s) in
  resourceAwsAcmpcaCertificateAuthorityCertificateAttachmentCreate conn s
  = match answer.1.2 with
    | Some err =>
      Done (Some (Errorf ("Error importing ACMPCA Certificate Authority Certificate: "
                          +:+ Error err))) imported
    | None =>
      resourceAwsAcmpcaCertificateAuthorityCertificateAttachmentRead conn
        {| rd := SetId (rd s) id; world := answer.2;
           events := events imported ++ [Fresh id]; uniq := S (uniq s) |}
    end.
Proof.
  intros request answer imported id. subst id imported answer request.
  unfold import_request, attachment_id, after_call.
  destruct (attachment_arn_string (rd s)) as [a Ha].
  destruct (attachment_body_string (rd s)) as [b Hb].
  destruct (attachment_chain_string (rd s)) as [c Hc].
  unfold resourceAwsAcmpcaCertificateAuthorityCertificateAttachmentCreate.
  mred. rewrite Ha. mred. rewrite Hb. mred.
  rewrite (GetOk_string ATT (rd s) "certificate_chain" (entry TypeString) c
             eq_refl eq_refl Hc), Hc.
  cbn [tag_text]. mred.
  destruct (String.eqb c ""); mred.
  all: match goal with
       | |- context [ImportCertificateAuthorityCertificate conn ?i ?w] =>
         destruct (ImportCertificateAuthorityCertificate conn i w) as [[out [e|]] w']
       end; mred; reflexivity.
Qed.

(** X11. The attachment's Create makes one import call before anything
    else, with the body and the authority ARN of the resource data and
    with the chain only when it is given and not empty. When the call
    fails, Create returns the error behind its prefix and nothing else
    has happened: no identifier is set and nothing is read. When it
    succeeds, Create sets the identifier to the ARN, a dash and a fresh
    unique suffix, and goes on as the attachment's Read does from
    there. *)
Theorem attachment_create_imports_once (s : st W) :
  let request := import_request (rd s) in
  let answer := ImportCertificateAuthorityCertificate conn request (world s) in
  let imported := after_call s answer.2 (ImportCertificateAuthorityCertificateCall request)
                    answer.1.2 in
  let id := attachment_id (rd s) (uniq s) in
  resourceAwsAcmpcaCertificateAuthorityCertificateAttachmentCreate conn s
  = match answer.1.2 with
    | Some err =>
      Done (Some (Errorf ("Error importing ACMPCA Certificate Authority Certificate: "
                          +:+ Error err))) imported
    | None =>
      resourceAwsAcmpcaCertificateAuthorityCertificateAttachmentRead conn
        {| rd := SetId (rd s) id; world := answer.2;
           events := events imported ++ [Fresh id]; uniq := S (uniq s) |}
    end.
Proof. exact (attachment_create_run s). Qed.

Lemma attachment_read_failure (s : st W) (err : error) :
  let caARN := tag_text (Get ATT (rd s) "certificate_authority_arn") in
  let answer := GetCertificateAuthorityCertificate conn caARN (world s) in
  answer.1.2 = Some err →
  resourceAwsAcmpcaCertificateAuthorityCertificateAttachmentRead conn s
  = Done (if attachment_gone err then None
          else Some (Errorf
                 ("error reading ACMPCA Certificate Authority Certificate from ACMPCA Certificate Authority "
                  +:+ quote caARN +:+ ": " +:+ Error err)))
      {| rd := if attachment_gone err then SetId (rd s) "" else rd s;
         world := answer.2;
         events := events s ++ [Remote (GetCertificateAuthorityCertificateCall caARN) (Some err)];
         uniq := uniq s |}.
Proof.
  intros caARN answer Herr. subst answer caARN. unfold attachment_gone.
  destruct (attachment_arn_string (rd s)) as [a Ha]. rewrite Ha in *. cbn [tag_text] in *.
  unfold resourceAwsAcmpcaCertificateAuthorityCertificateAttachmentRead.
  mred. rewrite Ha. mred. rewrite Herr. mred.
  destruct (isAWSErr err ErrCodeResourceNotFoundException ""); mred; [reflexivity|].
  destruct (isAWSErr err ErrCodeInvalidStateException ""); mred; reflexivity.
Qed.

(** X12. When the certificate fetch of the attachment's Read fails with a
    not-found or an invalid-state error, Read clears the identifier and
    returns nil; with any other error it returns that error behind the
    prefix that quotes the ARN and leaves the resource data as it was.
    Either way the attributes are untouched and the fetch is the only
    call. *)
Theorem attachment_read_gone (s : st W) (err : error) :
  let caARN := tag_text (Get ATT (rd s) "certificate_authority_arn") in
  let answer := GetCertificateAuthorityCertificate conn caARN (world s) in
  answer.1.2 = Some err →
  resourceAwsAcmpcaCertificateAuthorityCertificateAttachmentRead conn s
  = Done (if attachment_gone err then None
          else Some (Errorf
                 ("error reading ACMPCA Certificate Authority Certificate from ACMPCA Certificate Authority "
                  +:+ quote caARN +:+ ": " +:+ Error err)))
      {| rd := if attachment_gone err then SetId (rd s) "" else rd s;
         world := answer.2;
         events := events s ++ [Remote (GetCertificateAuthorityCertificateCall caARN) (Some err)];
         uniq := uniq s |}.
Proof. exact (attachment_read_failure s err). Qed.

(** X13. Create of an attachment whose import succeeds while the
    certificate fetch that follows reports not-found or invalid-state
    returns nil with the identifier cleared: the run is the import, the
    draw of the identifier and the fetch, and the attributes are left as
    they were. *)
Theorem attachment_create_without_id (s : st W) (w : W) (err : error) :
  let caARN := tag_text (Get ATT (rd s) "certificate_authority_arn") in
  (ImportCertificateAuthorityCertificate conn (import_request (rd s)) (world s)).1.2 = None →
  (ImportCertificateAuthorityCertificate conn (import_request (rd s)) (world s)).2 = w →
  (GetCertificateAuthorityCertificate conn caARN w).1.2 = Some err →
  attachment_gone err = true →
  ∃ s', resourceAwsAcmpcaCertificateAuthorityCertificateAttachmentCreate conn s = Done None s'
        ∧ rd_id (rd s') = ""
        ∧ rd_attrs (rd s') = rd_attrs (rd s)
        ∧ events s'
          = events s ++
            [Remote (ImportCertificateAuthorityCertificateCall (import_request (rd s))) None;
             Fresh (attachment_id (rd s) (uniq s));
             Remote (GetCertificateAuthorityCertificateCall caARN) (Some err)].
Proof.
  intros caARN Himp Hw Hget Hgone. subst caARN.
  pose proof (attachment_create_run s) as Hc. cbv zeta in Hc.
  rewrite Himp, Hw in Hc. rewrite Hc. clear Hc.
  match goal with |- context [_ conn ?s1 = _] => pose proof (attachment_read_failure s1 err) as Hr end.
  cbv zeta in Hr. cbn [rd world events uniq] in Hr.
  assert (Hsame : Get ATT (SetId (rd s) (attachment_id (rd s) (uniq s)))
                    "certificate_authority_arn"
                  = Get ATT (rd s) "certificate_authority_arn") by reflexivity.
  rewrite Hsame in Hr. specialize (Hr Hget). rewrite Hgone in Hr. rewrite Hr.
  eexists. split; [reflexivity|]. cbn [rd events]. split_and!; try reflexivity.
  unfold after_call. cbn [events]. rewrite <- !app_assoc. reflexivity.
Qed.

(** ** CertificateAuthorityManager: Read *)

Lemma read_writes_false (k : string) :
  read_writes k = false → Forall (fun k' => k' ≠ k) read_keys.
Proof.
  intros H. apply bool_decide_eq_false in H. apply Forall_forall.
  intros k' Hin ->. contradiction.
Qed.

(** Runs Read symbolically, one case for every answer of the service. *)
Ltac read_cases :=
  unfold resourceAwsAcmpcaCertificateAuthorityRead; mred;
  repeat first
    [ progress mred
    | progress cbn [DescribeCertificateAuthorityOutput.CertificateAuthority]
    | progress rewrite ?Set_id
    | match goal with
      | |- context [DescribeCertificateAuthority conn ?a ?w] =>
        destruct (DescribeCertificateAuthority conn a w) as [[[[[?|]]|] [?|]] ?]
      | |- context [GetCertificateAuthorityCertificate conn ?a ?w] =>
        destruct (GetCertificateAuthorityCertificate conn a w) as [[[?|] [?|]] ?]
      | |- context [GetCertificateAuthorityCsr conn ?a ?w] =>
        destruct (GetCertificateAuthorityCsr conn a w) as [[[?|] [?|]] ?]
      | |- context [AcmpcaListTags conn ?a ?w] =>
        destruct (AcmpcaListTags conn a w) as [[? [?|]] ?]
      | |- context [isAWSErr ?e ?c ?m] => destruct (isAWSErr e c m)
      | |- context [match (Set_ ?sch ?d ?k ?v).2 with _ => _ end] =>
        destruct (Set_ sch d k v).2
      end ].

(** The events a finished run added, read off its final state. *)
Ltac added_events s :=
  lazymatch goal with
  | |- context [new_events s ?o] =>
    let ev := eval cbn [final events] in (events (final o)) in
    let pre := lazymatch ev with
               | events s => constr:(@nil Event)
               | events s ++ ?p => constr:(p)
               | (events s ++ ?p) ++ ?q => constr:(p ++ q)
               | ((events s ++ ?p) ++ ?q) ++ ?r => constr:(p ++ q ++ r)
               | (((events s ++ ?p) ++ ?q) ++ ?r) ++ ?t => constr:(p ++ q ++ r ++ t)
               end in
    rewrite (new_events_app s o pre)
      by (cbn [final events]; rewrite <- ?app_assoc, ?app_nil_r; reflexivity)
  end.

Ltac read_leaf s n :=
  exists n; split; [lia|]; split; [|split; [|split]];
  [ added_events s; cbn [take read_calls app];
    repeat constructor; eexists; reflexivity
  | let k := fresh "k" in let Hk := fresh "Hk" in
    intros k Hk; apply read_writes_false in Hk; unfold read_keys in Hk;
    repeat match goal with
           | H : Forall _ (_ :: _) |- _ =>
             let H1 := fresh in apply Forall_cons in H as [H1 H]
           end;
    cbn [final rd];
    repeat first [ rewrite Set_frame by assumption | progress cbn [SetId rd_attrs] ];
    reflexivity
  | first [ left; cbn [final rd SetId rd_id]; rewrite ?Set_id; reflexivity
          | right; split; reflexivity ]
  | let Heq := fresh "Heq" in
    intros Heq;
    first [ left; reflexivity
          | right; reflexivity
          | cbn [returned] in Heq; discriminate Heq ] ].

Lemma read_shape (s : st W) :
  read_outcome s (resourceAwsAcmpcaCertificateAuthorityRead conn s).
Proof.
  read_cases.
  all: unfold read_outcome.
  all: first [ read_leaf s 1%nat | read_leaf s 2%nat | read_leaf s 3%nat | read_leaf s 4%nat ].
Qed.

(** X6. Read makes only its four reading calls (describe, certificate,
    CSR, list tags), each at most once, in this order and all for the
    identifier it started with: the events it adds are the first [n] of
    them, with [n] at least one, also when it stops early or panics. It
    never creates, updates, deletes, issues or imports. It returns nil
    only after all four calls, or with the identifier cleared. *)
Theorem read_calls_in_order (s : st W) :
  let o := resourceAwsAcmpcaCertificateAuthorityRead conn s in
  ∃ n, (1 ≤ n ≤ 4)%nat
       ∧ Forall2 is_call (new_events s o) (take n (read_calls (rd_id (rd s))))
       ∧ (returned o = Some None → n = 4%nat ∨ rd_id (rd (final o)) = "").
Proof.
  intros o. destruct (read_shape s) as (n & Hn & Hcalls & _ & _ & Hnil).
  exists n. split; [exact Hn|]. split; assumption.
Qed.

(** X7. Read leaves every attribute outside the thirteen keys it writes
    as it found it, the validity fields and the retention days among
    them, also when it stops early or panics. It keeps the identifier, or
    it clears it and returns nil: an error never comes with a cleared
    identifier. *)
Theorem read_keeps_other_attributes (s : st W) (k : string) :
  read_writes k = false →
  let o := resourceAwsAcmpcaCertificateAuthorityRead conn s in
  rd_attrs (rd (final o)) !! k = rd_attrs (rd s) !! k
  ∧ (rd_id (rd (final o)) = rd_id (rd s)
     ∨ rd_id (rd (final o)) = "" ∧ returned o = Some None).
Proof.
  intros Hk o. destruct (read_shape s) as (n & _ & _ & Hframe & Hid & _).
  split; [by apply Hframe | exact Hid].
Qed.

Lemma Set_lands (sch : gmap string Schema) (d : ResourceData) (k : string) (v : value)
    (e : Schema) :
  sch !! k = Some e → has_type (Type_ e) v = true → (Set_ sch d k v).2 = None.
Proof.
  intros He Ht. unfold Set_. rewrite He.
  destruct v; try (by destruct (Type_ e)).
  all: cbv zeta; by rewrite Ht.
Qed.

Lemma Set_lookup (sch : gmap string Schema) (d : ResourceData) (k : string) (v : value)
    (e : Schema) :
  sch !! k = Some e → has_type (Type_ e) v = true →
  rd_attrs (Set_ sch d k v).1 !! k = Some v.
Proof.
  intros He Ht. unfold Set_. rewrite He.
  destruct v; try (by destruct (Type_ e)).
  all: cbv zeta; rewrite Ht; cbn; by rewrite lookup_insert_eq.
Qed.

(** Finds the last write to the key looked up in a chain of writes. *)
Ltac last_write :=
  repeat (rewrite Set_frame by discriminate);
  first [ eapply (Set_ptr_string CA); reflexivity
        | eapply Set_lookup; reflexivity ].

(** X8. When the describe call returns an authority, the certificate and
    the CSR fetch come back without error or with an invalid-state error,
    and the tag listing succeeds, Read returns nil, keeps the identifier
    and records the answers: [enabled] is false exactly for the status
    DISABLED; [arn], [status] and [type] are those of the authority; the
    two configuration blocks are the flattened ones; [certificate],
    [certificate_chain] and [certificate_signing_request] are those of the
    answers, and empty where an answer has none; [tags] are the listed
    tags without the keys reserved by AWS. *)
Theorem read_records_authority (s : st W) (ca : CertificateAuthority.t)
    (cert : option GetCertificateAuthorityCertificateOutput.t) (certerr : option error)
    (csr : option GetCertificateAuthorityCsrOutput.t) (csrerr : option error)
    (tags : KeyValueTags) (w1 w2 w3 w4 : W) :
  let arn := rd_id (rd s) in
  DescribeCertificateAuthority conn arn (world s) = ((described (Some ca), None), w1) →
  GetCertificateAuthorityCertificate conn arn w1 = ((cert, certerr), w2) →
  tolerated certerr = true →
  GetCertificateAuthorityCsr conn arn w2 = ((csr, csrerr), w3) →
  tolerated csrerr = true →
  AcmpcaListTags conn arn w3 = ((tags, None), w4) →
  ∃ s', resourceAwsAcmpcaCertificateAuthorityRead conn s = Done None s'
        ∧ rd_id (rd s') = arn ∧ world s' = w4
        ∧ rd_attrs (rd s') !! "arn" = Some (VString (StringValue (CertificateAuthority.Arn ca)))
        ∧ rd_attrs (rd s') !! "enabled"
          = Some (VBool (negb (String.eqb (StringValue (CertificateAuthority.Status ca))
                                 CertificateAuthorityStatusDisabled)))
        ∧ rd_attrs (rd s') !! "status"
          = Some (VString (StringValue (CertificateAuthority.Status ca)))
        ∧ rd_attrs (rd s') !! "type"
          = Some (VString (StringValue (CertificateAuthority.Type_ ca)))
        ∧ rd_attrs (rd s') !! "certificate_authority_configuration"
          = Some (VList (flattenAcmpcaCertificateAuthorityConfiguration
                           (CertificateAuthority.CertificateAuthorityConfiguration ca)))
        ∧ rd_attrs (rd s') !! "revocation_configuration"
          = Some (VList (flattenAcmpcaRevocationConfiguration
                           (CertificateAuthority.RevocationConfiguration ca)))
        ∧ rd_attrs (rd s') !! "certificate"
          = Some (VString (StringValue
                    (cert ≫= GetCertificateAuthorityCertificateOutput.Certificate)))
        ∧ rd_attrs (rd s') !! "certificate_chain"
          = Some (VString (StringValue
                    (cert ≫= GetCertificateAuthorityCertificateOutput.CertificateChain)))
        ∧ rd_attrs (rd s') !! "certificate_signing_request"
          = Some (VString (StringValue (csr ≫= GetCertificateAuthorityCsrOutput.Csr)))
        ∧ rd_attrs (rd s') !! "tags" = Some (Map_ (IgnoreAws tags)).
Proof.
  intros arn Hdescribe Hcert Hcerr Hcsr Hcsrerr Htags. subst arn.
  unfold resourceAwsAcmpcaCertificateAuthorityRead. mred.
  rewrite Hdescribe. unfold described. mred.
  cbn [DescribeCertificateAuthorityOutput.CertificateAuthority]. mred.
  rewrite (Set_lands CA _ "certificate_authority_configuration" (VList _) (entry TypeList)
             eq_refl eq_refl). mred.
  rewrite (Set_lands CA _ "revocation_configuration" (VList _) (entry TypeList)
             eq_refl eq_refl). mred.
  rewrite !Set_id, Hcert. mred.
  assert (Hc : ∀ e, certerr = Some e →
             isAWSErr e ErrCodeResourceNotFoundException "" = false
             ∧ isAWSErr e ErrCodeInvalidStateException "" = true).
  { intros e ->. cbn in Hcerr. apply andb_true_iff in Hcerr as [H1 H2].
    by apply negb_true_iff in H1. }
  assert (Hr : ∀ e, csrerr = Some e →
             isAWSErr e ErrCodeResourceNotFoundException "" = false
             ∧ isAWSErr e ErrCodeInvalidStateException "" = true).
  { intros e ->. cbn in Hcsrerr. apply andb_true_iff in Hcsrerr as [H1 H2].
    by apply negb_true_iff in H1. }
  clear Hcerr Hcsrerr.
  destruct certerr as [e1|]; [destruct (Hc e1 eq_refl) as [-> ->]|]; mred.
  all: destruct cert as [cert|]; mred.
  all: rewrite !Set_id, Hcsr; mred.
  all: destruct csrerr as [e2|]; [destruct (Hr e2 eq_refl) as [-> ->]|]; mred.
  all: destruct csr as [csr|]; mred.
  all: rewrite !Set_id, Htags; mred.
  all: rewrite (Set_lands CA _ "tags" (Map_ _) (entry TypeMap) eq_refl eq_refl); mred.
  all: eexists; split; [reflexivity|]; cbn [rd world].
  all: split; [by rewrite !Set_id|]; split; [reflexivity|].
  all: cbn [mbind option_bind].
  all: split_and!; last_write.
Qed.

(** ** CertificateAuthorityManager: Update, the remaining runs *)

(** X9. When neither [enabled], nor [revocation_configuration], nor
    [tags] changed, Update is Read: it makes no call of its own, and what
    it returns and leaves behind is what Read does from the same
    state. *)
Theorem update_without_change (s : st W) :
  HasChange CA (rd s) "enabled" = false →
  HasChange CA (rd s) "revocation_configuration" = false →
  HasChange CA (rd s) "tags" = false →
  resourceAwsAcmpcaCertificateAuthorityUpdate conn s
  = resourceAwsAcmpcaCertificateAuthorityRead conn s.
Proof.
  intros Hen Hrev Htags.
  unfold resourceAwsAcmpcaCertificateAuthorityUpdate. mred.
  rewrite Hen. mred. rewrite Hrev. mred. rewrite Htags. mred.
  by destruct s.
Qed.

(** X10. When the update call fails, Update returns its error behind the
    prefix of line 497 right after that one call: the tags are not
    written, Read does not run, and the resource data is left as it
    was. *)
Theorem update_call_failure (s : st W) (revocation : option RevocationConfiguration)
    (err : error) :
  let d := rd s in
  let request := update_request d revocation in
  let answer := UpdateCertificateAuthority conn request (world s) in
  HasChange CA d "enabled" || HasChange CA d "revocation_configuration" = true →
  update_revocation d = Ret revocation →
  answer.1.2 = Some err →
  resourceAwsAcmpcaCertificateAuthorityUpdate conn s
  = Done (Some (Errorf ("error updating ACMPCA Certificate Authority: " +:+ Error err)))
      (after_call s answer.2 (UpdateCertificateAuthorityCall request) (Some err)).
Proof.
  intros d request answer Hchanged Hrev Herr. subst answer request d.
  unfold update_request in *. unfold update_revocation in Hrev. unfold after_call.
  destruct (Get_bool CA (rd s) "enabled" (entry_default TypeBool (VBool true))
              eq_refl eq_refl) as [en Hen].
  destruct (Get_list CA (rd s) "revocation_configuration" (entry TypeList)
              eq_refl eq_refl) as [rl Hrl].
  rewrite Hen, Hrl in *. cbn [bool_of slice_of] in *.
  revert Hchanged Hrev Herr.
  unfold resourceAwsAcmpcaCertificateAuthorityUpdate. mred.
  destruct (HasChange CA (rd s) "enabled"); mred; rewrite ?Hen; mred.
  all: intros Hchanged Hrev; mred.
  all: destruct (HasChange CA (rd s) "revocation_configuration");
    try discriminate Hchanged; mred; rewrite ?Hrl; mred; rewrite ?Hrev; mred.
  all: destruct en; cbn [negb]; intros Herr; rewrite Herr; mred; reflexivity.
Qed.

(** ** CertificateAuthorityManager: Create of a ROOT authority *)

Lemma selfsign_never_issues :
  spec before_issuing (acmpcaCertificateAuthoritySelfSignCert conn) (fun r => r ≠ None).
Proof.
  intros s. pose proof (selfsign_stops_after_csr s) as H. cbv zeta in H.
  destruct (GetCertificateAuthorityCsr conn (rd_id (rd s)) (world s)).1.2 as [err|];
    rewrite H; cbn [final after_call events].
  - split; [|by intros a s' [= <- _]].
    eexists. split; [reflexivity|]. by repeat constructor.
  - split; [|discriminate].
    eexists. split; [reflexivity|]. by repeat constructor.
Qed.

Lemma read_before_issuing :
  spec before_issuing (resourceAwsAcmpcaCertificateAuthorityRead conn) (fun _ => True).
Proof. unfold resourceAwsAcmpcaCertificateAuthorityRead. spec_auto. Qed.

Lemma poll_events {R} (φ : Event → Prop) (n : nat) (conf : StateChangeConf W R) :
  spec φ (Refresh conf) (fun _ => True) → spec φ (poll_loop n conf) (fun _ => True).
Proof.
  intros Hfetch. induction n as [|n IH]; simpl.
  - apply spec_bind_any; [exact Hfetch|]. intros [[[res|] status] [e|]]; spec_auto.
  - apply spec_bind_any; [exact Hfetch|]. intros [[[res|] status] [e|]]; spec_auto.
    exact IH.
Qed.

Lemma wait_before_issuing (pending target : list string) (arn : string) (timeout : Z) :
  spec before_issuing
    (WaitForState budget
       {| Pending := pending; Target := target;
          Refresh := acmpcaCertificateAuthorityRefreshFunc conn arn; Timeout := timeout |})
    (fun _ => True).
Proof.
  unfold WaitForState. apply poll_events. cbn [Refresh].
  unfold acmpcaCertificateAuthorityRefreshFunc. spec_auto.
Qed.

(** A [spec] step of the proof that Create of a ROOT authority stops in
    the self-sign sequence. *)
Ltac root_flow :=
  lazymatch goal with
  | |- spec _ (acmpcaCertificateAuthoritySelfSignCert _ ≫= _) _ =>
    eapply spec_bind; [apply selfsign_never_issues | intros [?|] ?; [|contradiction]]
  | |- spec _ (WaitForState _ _) _ => apply wait_before_issuing
  | |- spec _ (Retry _ _ _) _ => unfold Retry; apply retry_spec
  | |- spec _ _ _ => spec_step
  | |- _ ≠ None => discriminate
  | |- _ => spec_side
  end.

(** X14. Create of an authority whose [type] reads as ROOT never returns
    nil, whatever the service answers and whatever the budget: it returns
    an error or panics, and no certificate is issued, awaited, fetched or
    imported in the run. The self-sign sequence stops at the type
    assertion of line 573, so the Read at the end of Create is never
    reached. *)
Theorem create_root_never_completes (s : st W) :
  is_root (rd s) = true →
  let o := resourceAwsAcmpcaCertificateAuthorityCreate conn budget isResourceTimeoutError s in
  returned o ≠ Some None ∧ Forall before_issuing (new_events s o).
Proof.
  intros Hroot o. subst o.
  destruct (type_string (rd s)) as [t Ht].
  rewrite (is_root_eqb _ _ Ht) in Hroot.
  unfold resourceAwsAcmpcaCertificateAuthorityCreate.
  rewrite bind_run, (get_string_run _ _ _ _ Ht). cbv beta iota zeta.
  rewrite Hroot.
  match goal with |- context [orelse ?m ?k] => set (tail := k) end.
  assert (Htail : spec before_issuing tail (fun r => r ≠ None)).
  { subst tail. repeat root_flow. }
  rewrite orelse_run.
  mred. destruct (GetOk CA (rd s) "validity_length").2; mred.
  2: { split; [discriminate|]. rewrite (new_events_app _ _ []); [constructor|].
       by rewrite app_nil_r. }
  destruct (GetOk CA (rd s) "validity_unit").2; mred.
  2: { split; [discriminate|]. rewrite (new_events_app _ _ []); [constructor|].
       by rewrite app_nil_r. }
  destruct (Htail s) as [(l & Hl & Hall) Hret]. split.
  - destruct (tail s) as [r s'|s'] eqn:Hrun; [|discriminate].
    cbn [returned]. intros [= ->]. by apply (Hret None s').
  - by rewrite (new_events_app _ _ l).
Qed.

End Properties.

(** * Runs against the scripted service *)

(** C1. Create of a ROOT authority with validity of one year, against a
    service that creates the authority, reports it as pending certificate
    and serves its CSR: the run panics at the type assertion of line 573,
    right after the CSR fetch, and no certificate is ever issued. *)
Theorem root_create_panics_before_issuing :
  ∃ s', resourceAwsAcmpcaCertificateAuthorityCreate fake fake_budget bare_timeout root_run
        = Panicked s'
        ∧ events s' = [
            Fresh "terraform-0";
            Remote (CreateCertificateAuthorityCall (sample_request "ROOT" "terraform-0")) None;
            Remote (DescribeCertificateAuthorityCall fake_arn) None;
            Remote (DescribeCertificateAuthorityCall fake_arn) None;
            Remote (GetCertificateAuthorityCsrCall fake_arn) None ].
Proof.
  eexists. split.
  - vm_compute. reflexivity.
  - vm_compute. reflexivity.
Qed.

(** C2 as stated fails: with [validity_length = 0] and
    [validity_unit = "YEARS"] written in the configuration, neither field
    is absent, and Create still stops with the validation error. *)
Lemma create_rejects_zero_length :
  rd_attrs (rd root_zero_run) !! "validity_length" = Some (VInt 0)
  ∧ rd_attrs (rd root_zero_run) !! "validity_unit" = Some (VString "YEARS")
  ∧ resourceAwsAcmpcaCertificateAuthorityCreate fake fake_budget bare_timeout root_zero_run
    = Done (Some (Errorf
        "validity_length must be set when creating a Certificate Authority with a self-signed root certificate"))
        root_zero_run.
Proof. split_and!; vm_compute; reflexivity. Qed.

(** The precondition check on a ROOT configuration with a validity length
    of zero. *)
Lemma create_validity_precondition_sample :
  is_root (rd root_zero_run)
  && negb (validity_length_given (rd root_zero_run)
           && validity_unit_given (rd root_zero_run)) = true
  ∧ ∃ e, validation_error e
         ∧ resourceAwsAcmpcaCertificateAuthorityCreate fake fake_budget bare_timeout
             root_zero_run = Done (Some e) root_zero_run.
Proof.
  split; [vm_compute; reflexivity|].
  apply (create_validity_precondition fake fake_budget bare_timeout root_zero_run).
  vm_compute. reflexivity.
Defined.

(** Token reuse in a run whose first two create calls fail with the
    transient error. *)
Lemma create_token_reused_sample :
  let s := subordinate_run [bucket_permissions; bucket_permissions] in
  let input := sample_request "SUBORDINATE" (unique_id "terraform-" (uniq s)) in
  let token := unique_id "terraform-" (uniq s) in
  validity_missing (rd s) = false
  ∧ create_request (rd s) token = Ret input
  ∧ CreateCertificateAuthorityInput.IdempotencyToken input = Some token
  ∧ ∃ attempts rest,
      new_events s (resourceAwsAcmpcaCertificateAuthorityCreate fake fake_budget
                      bare_timeout s)
      = Fresh token :: attempts ++ rest
      ∧ (1 ≤ length attempts ≤ retries_within fake_budget 60 + 2)%nat
      ∧ Forall (fun ev => ∃ err, ev = attempt input err) attempts
      ∧ Forall quiet rest.
Proof.
  intros s input token.
  split; [vm_compute; reflexivity|]. split; [vm_compute; reflexivity|].
  apply (create_token_reused fake fake_budget bare_timeout s input).
  - vm_compute. reflexivity.
  - vm_compute. reflexivity.
Defined.

(** The retry policy in a run whose create calls fail with the transient
    error and then with an error of another kind. *)
Lemma create_retry_policy_sample :
  let s := subordinate_run [bucket_permissions; access_denied] in
  let input := sample_request "SUBORDINATE" (unique_id "terraform-" (uniq s)) in
  let token := unique_id "terraform-" (uniq s) in
  let create := resourceAwsAcmpcaCertificateAuthorityCreate fake fake_budget
                  bare_timeout s in
  validity_missing (rd s) = false
  ∧ create_request (rd s) token = Ret input
  ∧ ∃ errs last rest,
      new_events s create
      = Fresh token :: map (fun e => attempt input (Some e)) errs
        ++ attempt input last :: rest
      ∧ Forall (fun e => transient e = true) errs
      ∧ (length errs ≤ retries_within fake_budget 60)%nat
      ∧ (∀ e, last = Some e → transient e = true →
              length errs = retries_within fake_budget 60)
      ∧ (∀ e, last = Some e → transient e = false → bare_timeout e = false →
              rest = []
              ∧ ∃ s', create = Done (Some (Errorf
                          ("error creating ACMPCA Certificate Authority: " +:+ Error e))) s').
Proof.
  intros s input token create.
  split; [vm_compute; reflexivity|]. split; [vm_compute; reflexivity|].
  apply (create_retry_policy fake fake_budget bare_timeout s input).
  - vm_compute. reflexivity.
  - vm_compute. reflexivity.
Defined.

(** Two transient failures, then success: three create calls. *)
Example create_retries_twice :
  create_results
    (events (final (resourceAwsAcmpcaCertificateAuthorityCreate fake fake_budget
                      bare_timeout
                      (subordinate_run [bucket_permissions; bucket_permissions]))))
  = [Some bucket_permissions; Some bucket_permissions; None].
Proof. vm_compute. reflexivity. Qed.

(** Transient failures beyond the budget: the first attempt, three
    retries, and the one attempt after the timeout. *)
Example create_attempts_once_more_after_timeout :
  create_results
    (events (final (resourceAwsAcmpcaCertificateAuthorityCreate fake fake_budget
                      bare_timeout
                      (subordinate_run [bucket_permissions; bucket_permissions;
                                        bucket_permissions; bucket_permissions]))))
  = [Some bucket_permissions; Some bucket_permissions; Some bucket_permissions;
     Some bucket_permissions; None].
Proof. vm_compute. reflexivity. Qed.

(** A failure of another kind is not retried. *)
Example create_stops_on_access_denied :
  ∃ s', resourceAwsAcmpcaCertificateAuthorityCreate fake fake_budget bare_timeout
          (subordinate_run [access_denied])
        = Done (Some (Errorf
            "error creating ACMPCA Certificate Authority: AccessDeniedException: not authorized"))
            s'
        ∧ create_results (events s') = [Some access_denied].
Proof. eexists. split; vm_compute; reflexivity. Qed.

(** A subordinate authority without validity fields is created and ends
    as pending certificate, with a CSR and no certificate. *)
Example create_subordinate :
  ∃ s', resourceAwsAcmpcaCertificateAuthorityCreate fake fake_budget bare_timeout
          (subordinate_run []) = Done None s'
        ∧ rd_id (rd s') = fake_arn
        ∧ rd_attrs (rd s') !! "status" = Some (VString "PENDING_CERTIFICATE")
        ∧ rd_attrs (rd s') !! "certificate_signing_request" = Some (VString "CSR")
        ∧ rd_attrs (rd s') !! "certificate" = Some (VString "").
Proof. eexists. split_and!; vm_compute; reflexivity. Qed.

(** The fetch function against a service that does not have the
    authority. *)
Lemma refresh_reports_absence_sample :
  acmpcaCertificateAuthorityRefreshFunc fake fake_arn (start vanished nothing_yet)
  = Done (None, "", None)
      (after_call (start vanished nothing_yet) nothing_yet
         (DescribeCertificateAuthorityCall fake_arn) (Some not_found)).
Proof.
  apply (proj1 (refresh_reports_absence fake fake_budget fake_arn
                  (start vanished nothing_yet)) not_found).
  - reflexivity.
  - vm_compute. reflexivity.
Defined.

(** Read and Delete of an authority the service does not have. *)
Lemma read_delete_absent_sample :
  let s := start vanished nothing_yet in
  reports_absent (DescribeCertificateAuthority fake (rd_id (rd s)) (world s)).1.2
  ∧ (∃ s', resourceAwsAcmpcaCertificateAuthorityRead fake s = Done None s'
           ∧ rd_id (rd s') = "")
  ∧ (∃ s', resourceAwsAcmpcaCertificateAuthorityDelete fake s = Done None s').
Proof.
  intros s.
  assert (Hdescribe :
    reports_absent (DescribeCertificateAuthority fake (rd_id (rd s)) (world s)).1.2).
  { exists not_found. split; vm_compute; reflexivity. }
  split; [exact Hdescribe|].
  apply (read_delete_absent fake s Hdescribe).
  intros input _. exists not_found. split; vm_compute; reflexivity.
Defined.



(** Read and Delete of an attachment keep the body and the ARN that its
    Create recorded. *)
Lemma attachment_read_delete_frame_sample :
  let s := start attached active_authority in
  "certificate_body" ≠ "certificate_chain" ∧ "certificate_body" ≠ "certificate"
  ∧ rd_attrs (rd (final
      (resourceAwsAcmpcaCertificateAuthorityCertificateAttachmentRead fake s)))
      !! "certificate_body" = Some (VString "BODY")
  ∧ rd_attrs (rd (final
      (resourceAwsAcmpcaCertificateAuthorityCertificateAttachmentRead fake s)))
      !! "certificate_authority_arn" = Some (VString fake_arn)
  ∧ final (resourceAwsAcmpcaCertificateAuthorityCertificateAttachmentDelete s) = s.
Proof.
  intros s.
  assert (Hchain : "certificate_body" ≠ "certificate_chain") by discriminate.
  assert (Hcert : "certificate_body" ≠ "certificate") by discriminate.
  destruct (attachment_read_delete_frame fake s "certificate_body" Hchain Hcert)
    as (_ & Hbody & Harn & Hdelete & _).
  split_and!; [exact Hchain | exact Hcert | | | exact Hdelete].
  - etransitivity; [exact Hbody|]. vm_compute. reflexivity.
  - etransitivity; [exact Harn|]. vm_compute. reflexivity.
Defined.

(** The poll of Create against the scripted statuses CREATING, then
    PENDING_CERTIFICATE: two fetches, and the authority is returned. *)
Example poll_reaches_target :
  ∃ s', WaitForState fake_budget
          {| Pending := [""; CertificateAuthorityStatusCreating];
             Target := [CertificateAuthorityStatusActive;
                        CertificateAuthorityStatusPendingCertificate];
             Refresh := acmpcaCertificateAuthorityRefreshFunc fake fake_arn;
             Timeout := 60 |}
          (start vanished (fake_created nothing_yet [] true))
        = Done (Some (fake_authority "PENDING_CERTIFICATE"), None) s'
        ∧ length (events s') = 2%nat.
Proof. eexists. split; vm_compute; reflexivity. Qed.

(** The sample blocks expand to records in normal form that the round
    trip gives back. *)
Lemma expand_output_round_trips_sample :
  let s := {| CommonName := Some "terraformtesting.com"; Country := None;
              DistinguishedNameQualifier := None; GenerationQualifier := None;
              GivenName := None; Initials := None; Locality := None; Organization := None;
              OrganizationalUnit := None; Pseudonym := None; State := None;
              Surname := None; Title := None |} in
  let c := {| KeyAlgorithm := Some "RSA_4096"; SigningAlgorithm := Some "SHA512WITHRSA";
              Subject := Some s |} in
  expandAcmpcaASN1Subject [subject_block] = Ret (Some s)
  ∧ expandAcmpcaCertificateAuthorityConfiguration [configuration_block] = Ret (Some c)
  ∧ normal_configuration c = true
  ∧ expandAcmpcaCertificateAuthorityConfiguration
      (flattenAcmpcaCertificateAuthorityConfiguration (Some c)) = Ret (Some c).
Proof.
  intros s c.
  assert (Hs : expandAcmpcaASN1Subject [subject_block] = Ret (Some s))
    by (vm_compute; reflexivity).
  assert (Hc : expandAcmpcaCertificateAuthorityConfiguration [configuration_block]
               = Ret (Some c)) by (vm_compute; reflexivity).
  assert (Hr : expandAcmpcaRevocationConfiguration
                 (flattenAcmpcaRevocationConfiguration (Some sample_revocation))
               = Ret (Some sample_revocation)) by (vm_compute; reflexivity).
  destruct (expand_output_round_trips _ _ _ s c sample_revocation Hs Hc Hr)
    as ((_ & Nc & _) & _ & Hround & _).
  split_and!; assumption.
Defined.


(** Read of an active authority keeps the validity length of the
    configuration. *)
Lemma read_keeps_other_attributes_sample :
  let s := start (fresh_data root_attrs) active_authority in
  read_writes "validity_length" = false
  ∧ rd_attrs (rd (final (resourceAwsAcmpcaCertificateAuthorityRead fake s)))
      !! "validity_length" = Some (VInt 1).
Proof.
  intros s.
  assert (Hk : read_writes "validity_length" = false) by (vm_compute; reflexivity).
  split; [exact Hk|].
  destruct (read_keeps_other_attributes fake s "validity_length" Hk) as [Hframe _].
  etransitivity; [exact Hframe|]. vm_compute. reflexivity.
Defined.

(** Read of an active authority with an imported certificate. *)
Lemma read_records_authority_sample :
  let s := start vanished active_authority in
  ∃ s', resourceAwsAcmpcaCertificateAuthorityRead fake s = Done None s'
        ∧ rd_attrs (rd s') !! "status" = Some (VString "ACTIVE")
        ∧ rd_attrs (rd s') !! "enabled" = Some (VBool true)
        ∧ rd_attrs (rd s') !! "certificate" = Some (VString "PEM")
        ∧ rd_attrs (rd s') !! "certificate_signing_request" = Some (VString "CSR").
Proof.
  intros s.
  destruct (read_records_authority fake s (fake_authority "ACTIVE")
              (Some {| GetCertificateAuthorityCertificateOutput.Certificate := Some "PEM";
                       GetCertificateAuthorityCertificateOutput.CertificateChain := None |})
              None
              (Some {| GetCertificateAuthorityCsrOutput.Csr := Some "CSR" |}) None
              ∅ active_authority active_authority active_authority active_authority)
    as (s' & Hrun & _ & _ & _ & Hen & Hst & _ & _ & _ & Hcert & _ & Hcsr & _).
  1-6: vm_compute; reflexivity.
  exists s'. split_and!; [exact Hrun | exact Hst | exact Hen | exact Hcert | exact Hcsr].
Defined.

(** Update of an authority whose data equals its state is Read. *)
Lemma update_without_change_sample :
  let s := start vanished active_authority in
  resourceAwsAcmpcaCertificateAuthorityUpdate fake s
  = resourceAwsAcmpcaCertificateAuthorityRead fake s.
Proof.
  intros s. apply (update_without_change fake s); vm_compute; reflexivity.
Defined.

(** Switching off an authority the service does not have: the update call
    fails and Update hands its error on. *)
Lemma update_call_failure_sample :
  let s := start disabling nothing_yet in
  ∃ s', resourceAwsAcmpcaCertificateAuthorityUpdate fake s
        = Done (Some (Errorf ("error updating ACMPCA Certificate Authority: "
                              +:+ Error not_found))) s'
        ∧ rd s' = rd s.
Proof.
  intros s. eexists. split.
  - apply (update_call_failure fake s None not_found); vm_compute; reflexivity.
  - reflexivity.
Defined.

(** The attachment's Read against a service without the authority. *)
Lemma attachment_read_gone_sample :
  let s := start attached nothing_yet in
  ∃ s', resourceAwsAcmpcaCertificateAuthorityCertificateAttachmentRead fake s = Done None s'
        ∧ rd_id (rd s') = "" ∧ rd_attrs (rd s') = rd_attrs (rd s).
Proof.
  intros s. eexists. split.
  - etransitivity.
    + apply (attachment_read_gone fake s not_found). vm_compute. reflexivity.
    + vm_compute. reflexivity.
  - split; reflexivity.
Defined.

(** The attachment's Create against the lagging service: the import
    lands, and the resource is left without an identifier. *)
Lemma attachment_create_without_id_sample :
  let s := start attaching active_authority in
  ∃ s', resourceAwsAcmpcaCertificateAuthorityCertificateAttachmentCreate lagging s
        = Done None s'
        ∧ rd_id (rd s') = ""
        ∧ rd_attrs (rd s') = rd_attrs (rd s).
Proof.
  intros s.
  destruct (attachment_create_without_id lagging s (fake_imported active_authority "BODY")
              invalid_state) as (s' & Hrun & Hid & Hattrs & _).
  1-4: vm_compute; reflexivity.
  exists s'. split_and!; [exact Hrun | exact Hid | exact Hattrs].
Defined.

(** Create of the sample ROOT authority does not return nil. *)
Lemma create_root_never_completes_sample :
  is_root (rd root_run) = true
  ∧ returned (resourceAwsAcmpcaCertificateAuthorityCreate fake fake_budget bare_timeout
                root_run) ≠ Some None.
Proof.
  assert (Hroot : is_root (rd root_run) = true) by (vm_compute; reflexivity).
  split; [exact Hroot|].
  exact (proj1 (create_root_never_completes fake fake_budget bare_timeout root_run Hroot)).
Defined.
